(** * scripts/task.py: request builder, poller and result formatter

    A shallow embedding of [scripts/task.py].  Python [str] values are Rocq
    [string]s, one [ascii] per character; Python dictionaries are association
    lists kept in insertion order (the script reads [keys()] and [items()] in
    that order); objects of the client library are records whose optional
    attributes are explicit. *)

From Stdlib Require Import List String Ascii Bool Arith ZArith QArith Lia Lqa.
From Stdlib Require Import DecimalString.
Import ListNotations.

Local Set Warnings "-register-all".
Local Close Scope Q_scope.
Local Open Scope nat_scope.
Local Open Scope list_scope.
Local Open Scope string_scope.

(** ** The Python builtins the script calls *)

Module Py.

(** [c in s] for a one-character [c]. *)
Fixpoint contains (c : ascii) (s : string) : bool :=
  match s with
  | EmptyString => false
  | String a rest => if Ascii.eqb a c then true else contains c rest
  end.

(** [s.split(sep)] for a one-character separator: never empty, one more
    piece than there are separators. *)
Fixpoint split (sep : ascii) (s : string) : list string :=
  match s with
  | EmptyString => [EmptyString]
  | String a rest =>
      if Ascii.eqb a sep then EmptyString :: split sep rest
      else match split sep rest with
           | [] => [String a EmptyString]
           | w :: ws => String a w :: ws
           end
  end.

(** [s.split(sep, 1)] on a string that holds [sep]: the text before the
    first separator and the text after it.  [None] when [sep] is absent
    (Python then returns the one-element list [[s]]). *)
Fixpoint split1 (sep : ascii) (s : string) : option (string * string) :=
  match s with
  | EmptyString => None
  | String a rest =>
      if Ascii.eqb a sep then Some (EmptyString, rest)
      else match split1 sep rest with
           | Some (k, v) => Some (String a k, v)
           | None => None
           end
  end.

(** [str.isspace] on one character, for the code points below 256. *)
Definition isspace (a : ascii) : bool :=
  let n := nat_of_ascii a in
  (Nat.leb 9 n && Nat.leb n 13) || (Nat.leb 28 n && Nat.leb n 32)
  || Nat.eqb n 133 || Nat.eqb n 160.

Fixpoint lstrip (s : string) : string :=
  match s with
  | EmptyString => EmptyString
  | String a rest => if isspace a then lstrip rest else s
  end.

Fixpoint rstrip (s : string) : string :=
  match s with
  | EmptyString => EmptyString
  | String a rest =>
      match rstrip rest with
      | EmptyString => if isspace a then EmptyString else String a EmptyString
      | r => String a r
      end
  end.

(** [s.strip()] *)
Definition strip (s : string) : string := rstrip (lstrip s).

(** [s.replace(a, b)] for one-character [a] and [b]. *)
Fixpoint replace (a b : ascii) (s : string) : string :=
  match s with
  | EmptyString => EmptyString
  | String c rest => String (if Ascii.eqb c a then b else c) (replace a b rest)
  end.

(** [s[:n]] *)
Fixpoint take (n : nat) (s : string) : string :=
  match n, s with
  | O, _ => EmptyString
  | _, EmptyString => EmptyString
  | S n', String a rest => String a (take n' rest)
  end.

(** [sep.join(l)] *)
Definition join (sep : string) (l : list string) : string := String.concat sep l.

(** Truth value of a string: non-empty. *)
Definition truthy_str (s : string) : bool :=
  match s with EmptyString => false | _ => true end.

(** Truth value of an optional string ([None] or [str]). *)
Definition truthy_opt (o : option string) : bool :=
  match o with Some s => truthy_str s | None => false end.

(** Truth value of an optional list ([None] or [list]). *)
Definition truthy_list {A} (o : option (list A)) : bool :=
  match o with Some (_ :: _) => true | _ => false end.

(** [str(n)] for an integer. *)
Definition str_int (z : Z) : string := NilZero.string_of_int (Z.to_int z).

(** Python values that travel through the script: request parameters,
    schemas, and the JSON content of a result. *)
Inductive value : Type :=
| VNone
| VBool (b : bool)
| VInt (z : Z)
| VStr (s : string)
| VList (l : list value)
| VDict (d : list (string * value)).

Definition dict : Type := list (string * value).

(** [d[k]] read: the value bound to [k]. *)
Fixpoint get {A} (k : string) (d : list (string * A)) : option A :=
  match d with
  | [] => None
  | (k', v) :: rest => if String.eqb k k' then Some v else get k rest
  end.

(** [d[k] = v]: a bound key keeps its place and takes the new value, a new
    key goes to the end. *)
Fixpoint set {A} (k : string) (v : A) (d : list (string * A)) : list (string * A) :=
  match d with
  | [] => [(k, v)]
  | (k', v') :: rest =>
      if String.eqb k k' then (k, v) :: rest else (k', v') :: set k v rest
  end.

(** [list(d.keys())] *)
Definition keys {A} (d : list (string * A)) : list string := map fst d.

End Py.

Import Py.

(** ** Schema builder *)

Definition comma : ascii := ","%char.
Definition equals : ascii := "="%char.
Definition underscore : ascii := "_"%char.
Definition space : ascii := " "%char.

Definition string_prop : value := VDict [("type", VStr "string")].

(** One turn of the first loop of [build_enrichment_spec], on the pair of
    dictionaries [(input_data, input_props)]. *)
Definition input_step (acc : list (string * string) * dict) (pair : string)
  : list (string * string) * dict :=
  if contains equals pair then
    match split1 equals pair with
    | Some (key, val) =>
        (set (strip key) (strip val) (fst acc),
         set (strip key) string_prop (snd acc))
    | None => acc
    end
  else acc.

Definition parse_inputs (input_fields : string) : list (string * string) * dict :=
  fold_left input_step (split comma input_fields) ([], []).

Definition describe (field : string) : string :=
  "The " ++ replace underscore space field ++ " of the entity".

Definition output_prop (field : string) : value :=
  VDict [("type", VStr "string"); ("description", VStr (describe field))].

(** One turn of the second loop, on [output_props]. *)
Definition output_step (output_props : dict) (field : string) : dict :=
  let field := strip field in
  if truthy_str field then set field (output_prop field) output_props
  else output_props.

Definition parse_outputs (output_fields : string) : dict :=
  fold_left output_step (split comma output_fields) [].

Definition json_schema (props : dict) : value :=
  VDict [("type", VStr "json");
         ("json_schema",
          VDict [("type", VStr "object");
                 ("properties", VDict props);
                 ("required", VList (map VStr (keys props)));
                 ("additionalProperties", VBool false)])].

Definition build_enrichment_spec (input_fields output_fields : string)
  : list (string * string) * dict :=
  let '(input_data, input_props) := parse_inputs input_fields in
  let output_props := parse_outputs output_fields in
  (input_data,
   [("input_schema", json_schema input_props);
    ("output_schema", json_schema output_props)]).


(** ** Objects of the client library *)

(** An exception of the script. [Exception] and [TimeoutError] are the two
    that [poll_task] raises itself; [ApiError] is raised inside the client
    library; [BuiltinError] stands for the [TypeError] or [AttributeError]
    of a builtin or of an attribute access. *)
Inductive exn : Type :=
| Exception (msg : string)
| TimeoutError (msg : string)
| ApiError (msg : string)
| BuiltinError.

Inductive res (A : Type) : Type :=
| Ok (a : A)
| Raise (e : exn).
Arguments Ok {A} a.
Arguments Raise {A} e.

Definition bind {A B} (m : res A) (k : A -> res B) : res B :=
  match m with Ok a => k a | Raise e => Raise e end.

Notation "x <- m ;; k" := (bind m (fun x => k))
  (at level 61, m at next level, right associativity).

(** [[f(x) for x in l]] where [f] may raise: the first failure wins. *)
Fixpoint traverse {A B} (f : A -> res B) (l : list A) : res (list B) :=
  match l with
  | [] => Ok []
  | x :: rest => y <- f x ;; ys <- traverse f rest ;; Ok (y :: ys)
  end.

(** An attribute that holds a list when it is there: it can be missing
    ([hasattr] false), hold [None], or hold a list. *)
Inductive attr_list (A : Type) : Type :=
| Missing
| IsNone
| Items (l : list A).
Arguments Missing {A}.
Arguments IsNone {A}.
Arguments Items {A} l.

Record Run : Type := { run_id : string; status : string; processor : string }.

(** [title] and [url] are read without [hasattr]: [None] here is a missing
    attribute. *)
Record Citation : Type := { title : option value; url : option value }.

Record Basis : Type :=
  { field : option value;
    confidence : option value;
    citations : attr_list Citation }.

Record Output : Type :=
  { type : string; content : value; basis : attr_list Basis }.

(** [output] is [None] when the attribute is missing or falsy: both
    renderers test [hasattr(result, 'output') and result.output]. *)
Record Result : Type := { run : Run; output : option Output }.

(** What [create] hands back: an object with a [run] attribute, or one that
    carries [run_id] itself. *)
Inductive TaskRun : Type :=
| WithRun (r : Run)
| Bare (id : string).

(** ** Task submitter *)

Definition truthy_dict (o : option dict) : bool :=
  match o with Some (_ :: _) => true | _ => false end.

Definition domains (l : option (list string)) : value :=
  match l with Some l => VList (map VStr l) | None => VNone end.

Definition source_policy (include_domains exclude_domains : option (list string)) : dict :=
  let source_policy := [] in
  let source_policy :=
    if truthy_list include_domains
    then set "include_domains" (domains include_domains) source_policy
    else source_policy in
  if truthy_list exclude_domains
  then set "exclude_domains" (domains exclude_domains) source_policy
  else source_policy.

(** The [params] dictionary of [create_task] at the call of
    [client.beta.task_run.create]. *)
Definition create_task_params
    (input_data : value) (processor : string) (task_spec : option dict)
    (include_domains exclude_domains : option (list string))
    (mcp_servers : option (list value)) : dict :=
  let params := [("input", input_data); ("processor", VStr processor)] in
  let params :=
    match task_spec with
    | Some ((_ :: _) as ts) => set "task_spec" (VDict ts) params
    | _ => params
    end in
  let params :=
    if truthy_list include_domains || truthy_list exclude_domains
    then set "source_policy"
             (VDict (source_policy include_domains exclude_domains)) params
    else params in
  match mcp_servers with
  | Some ((_ :: _) as l) =>
      set "betas" (VList [VStr "mcp-server-2025-07-17"])
          (set "mcp_servers" (VList l) params)
  | _ => params
  end.

(** ** Result formatter *)

(** Reading an attribute that may be missing. *)
Definition getattr (a : option value) : res value :=
  match a with Some v => Ok v | None => Raise BuiltinError end.

(** The bullet of the results list, as the source file spells it. *)
Definition bullet : string := "‚Ä¢".

Definition newline : string := String "010" EmptyString.

Section Formatter.

(** [repr] of the interpreter, used for [str(v)] when [v] is not a [str]. *)
Variable repr : value -> string.

Definition str (v : value) : string :=
  match v with VStr s => s | _ => repr v end.

Definition header (r : Run) : list string :=
  ["üî¨ Task: " ++ run_id r;
   "   Status: " ++ status r ++ " | Processor: " ++ processor r;
   EmptyString].

(** One line of the [**Results:**] list. *)
Definition result_line (kv : string * value) : string :=
  let val_str := str (snd kv) in
  let val_str :=
    if Nat.ltb 200 (String.length val_str) then take 200 val_str ++ "..."
    else val_str in
  "  " ++ bullet ++ " " ++ fst kv ++ ": " ++ val_str.

(** The branch on the output type.  In the text branch a content that is
    not a [str] fails in [len], in the slice or in the final [join]. *)
Definition content_lines (o : Output) : res (list string) :=
  match String.eqb (type o) "json", content o with
  | true, VDict d => Ok ("**Results:**" :: map result_line d)
  | _, _ =>
      if String.eqb (type o) "text" then
        match content o with
        | VStr s =>
            Ok ["**Report:**";
                if Nat.ltb 2000 (String.length s) then take 2000 s ++ "..." else s]
        | _ => Raise BuiltinError
        end
      else Ok ["**Output (" ++ type o ++ "):**"; take 2000 (str (content o))]
  end.

Definition citation_line (c : Citation) : res string :=
  t <- getattr (title c) ;;
  u <- getattr (url c) ;;
  Ok ("    - " ++ str t ++ ": " ++ str u).

Definition basis_lines (b : Basis) : res (list string) :=
  let field := match field b with Some v => v | None => VStr "result" end in
  let confidence :=
    match confidence b with Some v => v | None => VStr "unknown" end in
  let line := "  [" ++ str field ++ "] confidence: " ++ str confidence in
  match citations b with
  | Missing => Ok [line]
  | IsNone => Raise BuiltinError
  | Items l => cs <- traverse citation_line (firstn 2 l) ;; Ok (line :: cs)
  end.

Definition citation_block (o : Output) : res (list string) :=
  match basis o with
  | Items ((_ :: _) as l) =>
      bs <- traverse basis_lines (firstn 5 l) ;;
      Ok (EmptyString :: "**Citations:**" :: List.concat bs)
  | _ => Ok []
  end.

Definition format_result (result : Result) : res string :=
  match output result with
  | Some o =>
      body <- content_lines o ;;
      cites <- citation_block o ;;
      Ok (join newline (header (run result) ++ body ++ cites)%list)
  | None => Ok (join newline (header (run result)))
  end.

End Formatter.

(** ** JSON renderer: the [output] dictionary built in [main] *)

Definition citation_json (c : Citation) : res value :=
  t <- getattr (title c) ;;
  u <- getattr (url c) ;;
  Ok (VDict [("title", t); ("url", u)]).

Definition basis_json (b : Basis) : res value :=
  cs <- match citations b with
        | Missing => Ok []
        | IsNone => Raise BuiltinError
        | Items l => traverse citation_json l
        end ;;
  Ok (VDict [("field", match field b with Some v => v | None => VNone end);
             ("confidence",
              match confidence b with Some v => v | None => VNone end);
             ("citations", VList cs)]).

Definition json_document (result : Result) : res dict :=
  let doc := [("run_id", VStr (run_id (run result)));
              ("status", VStr (status (run result)));
              ("processor", VStr (processor (run result)))] in
  match output result with
  | Some o =>
      let doc :=
        set "output" (VDict [("type", VStr (type o)); ("content", content o)])
            doc in
      match basis o with
      | Missing => Ok doc
      | IsNone => Raise BuiltinError
      | Items l => bs <- traverse basis_json l ;; Ok (set "basis" (VList bs) doc)
      end
  | None => Ok doc
  end.

(** ** Command line *)

Module Args.
(** The namespace that [argparse] returns. *)
Record t : Type :=
  { query : list string;
    processor : string;
    enrich : option string;
    output : option string;
    report : bool;
    include_domains : option string;
    exclude_domains : option string;
    browseruse_key : option string;
    timeout : Z;
    json : bool;
    no_wait : bool }.
End Args.

(** What the first part of [main] settles: a usage error, or the three
    values handed to [create_task]. *)
Inductive mode : Type :=
| UsageError (msg : string)
| PrintHelp
| Submit (input_data : value) (task_spec : option dict) (processor : string).

(** [" ".join(args.query) if args.query else None] *)
Definition joined_query (args : Args.t) : option string :=
  match Args.query args with
  | [] => None
  | q => Some (join " " q)
  end.

Definition text_spec : dict := [("output_schema", VDict [("type", VStr "text")])].

Definition select_mode (args : Args.t) : mode :=
  match Args.enrich args with
  | Some (String _ _ as fields) =>
      match Args.output args with
      | Some (String _ _ as outs) =>
          let '(input_data, task_spec) := build_enrichment_spec fields outs in
          Submit (VDict (map (fun kv => (fst kv, VStr (snd kv))) input_data))
                 (Some task_spec) (Args.processor args)
      | _ => UsageError "Error: --enrich requires --output fields"
      end
  | _ =>
      if Args.report args then
        match joined_query args with
        | Some (String _ _ as query) => Submit (VStr query) (Some text_spec) "ultra"
        | _ => UsageError "Error: --report requires a query"
        end
      else
        match joined_query args with
        | Some (String _ _ as query) => Submit (VStr query) None (Args.processor args)
        | _ => PrintHelp
        end
  end.

(** [[d.strip() for d in s.split(",")]] when the flag is given. *)
Definition domain_filter (flag : option string) : option (list string) :=
  match flag with
  | Some (String _ _ as s) => Some (map strip (split comma s))
  | _ => None
  end.

(** [args.browseruse_key or os.environ.get("BROWSERUSE_API_KEY")] *)
Definition browseruse (args : Args.t) (environ : option string) : option string :=
  match Args.browseruse_key args with
  | Some (String _ _ as k) => Some k
  | _ => environ
  end.

Definition mcp_servers (key : option string) : option (list value) :=
  match key with
  | Some (String _ _ as k) =>
      Some [VDict [("type", VStr "url");
                   ("url", VStr "https://api.browser-use.com/mcp");
                   ("name", VStr "browseruse");
                   ("headers", VDict [("Authorization", VStr ("Bearer " ++ k))])]]
  | _ => None
  end.

(** The request that [main] submits, when it submits one. *)
Definition request (args : Args.t) (environ : option string) : option dict :=
  match select_mode args with
  | Submit input_data task_spec processor =>
      Some (create_task_params input_data processor task_spec
              (domain_filter (Args.include_domains args))
              (domain_filter (Args.exclude_domains args))
              (mcp_servers (browseruse args environ)))
  | _ => None
  end.

(** ** Poller and driver, against the outside world *)

(** What the script does to the outside world, in order. *)
Inductive event : Type :=
| Created (params : dict)
| Retrieved (id : string)
| Slept (seconds : Z)
| Stdout (text : string)
| Stderr (text : string)
| Help.

(** [reads] counts the calls of [time.time()], [polls] the calls of
    [retrieve]. *)
Record world : Type := { reads : nat; polls : nat; trace : list event }.

Definition tick (w : world) : world :=
  {| reads := S (reads w); polls := polls w; trace := trace w |}.

Definition polled (w : world) : world :=
  {| reads := reads w; polls := S (polls w); trace := trace w |}.

Definition emit (e : event) (w : world) : world :=
  {| reads := reads w; polls := polls w; trace := (trace w ++ [e])%list |}.

(** [a < b] on rationals, as a boolean. *)
Definition Qltb (a b : Q) : bool := negb (Qle_bool b a).

Definition str_exn (builtin_text : string) (e : exn) : string :=
  match e with
  | Exception msg | TimeoutError msg | ApiError msg => msg
  | BuiltinError => builtin_text
  end.

Section World.

(** The clock: [now k] is what the [k]-th call of [time.time()] returns,
    in seconds.  The two readings that [poll_task] subtracts are within a
    factor two of each other, so their floating-point difference is the
    exact one. *)
Variable now : nat -> Q.

(** The service: the answer to the [k]-th [retrieve], and to [create]. *)
Variable retrieve : nat -> string -> res Result.
Variable create : dict -> res TaskRun.

(** Text that the interpreter and the libraries produce. *)
Variable repr : value -> string.
Variable repr_run : Run -> string.
Variable json_dumps : dict -> string.
Variable builtin_text : string.

Definition timeout_message (run_id : string) (timeout : Z) : string :=
  "Task " ++ run_id ++ " did not complete within " ++ str_int timeout ++ "s".

Definition failure_message (r : Run) : string := "Task failed: " ++ repr_run r.

(** The [while] loop of [poll_task]; [None] when [fuel] turns of the loop
    did not settle it. *)
Fixpoint poll_loop (fuel : nat) (run_id : string) (timeout : Z) (start : Q)
    (w : world) : option (res Result) * world :=
  match fuel with
  | O => (None, w)
  | S fuel' =>
      let t := now (reads w) in
      let w := tick w in
      if Qltb (t - start) (inject_Z timeout) then
        let answer := retrieve (polls w) run_id in
        let w := emit (Retrieved run_id) (polled w) in
        match answer with
        | Raise e => (Some (Raise e), w)
        | Ok result =>
            if String.eqb (status (run result)) "completed" then
              (Some (Ok result), w)
            else if String.eqb (status (run result)) "failed" then
              (Some (Raise (Exception (failure_message (run result)))), w)
            else poll_loop fuel' run_id timeout start (emit (Slept 2) w)
        end
      else (Some (Raise (TimeoutError (timeout_message run_id timeout))), w)
  end.

Definition poll_task (fuel : nat) (run_id : string) (timeout : Z) (w : world)
  : option (res Result) * world :=
  let start := now (reads w) in
  poll_loop fuel run_id timeout start (tick w).

(** The two renderers, as [main] picks them with [--json]. *)
Definition render (json : bool) (result : Result) : res string :=
  if json then doc <- json_document result ;; Ok (json_dumps doc)
  else format_result repr result.

(** The [except Exception] handler of [main]. *)
Definition handler (e : exn) (w : world) : Z * world :=
  (1%Z, emit (Stderr ("‚ùå Error: " ++ str_exn builtin_text e)) w).

(** The end of [main]: render, print, exit status. *)
Definition print_result (json : bool) (result : Result) (w : world)
  : Z * world :=
  match render json result with
  | Raise e => handler e w
  | Ok text => (0%Z, emit (Stdout text) w)
  end.

Definition some_status (r : Z * world) : option Z * world :=
  (Some (fst r), snd r).

(** [main]: the exit status and the world it leaves; no status when the
    poll loop ran out of [fuel]. *)
Definition main (fuel : nat) (args : Args.t) (environ : option string)
    (w : world) : option Z * world :=
  match select_mode args with
  | UsageError msg => (Some 1%Z, emit (Stderr msg) w)
  | PrintHelp => (Some 1%Z, emit Help w)
  | Submit input_data task_spec processor =>
      let params :=
        create_task_params input_data processor task_spec
          (domain_filter (Args.include_domains args))
          (domain_filter (Args.exclude_domains args))
          (mcp_servers (browseruse args environ)) in
      let w := emit (Created params) w in
      match create params with
      | Raise e => some_status (handler e w)
      | Ok task_run =>
          let run_id :=
            match task_run with WithRun r => run_id r | Bare id => id end in
          if Args.no_wait args then
            (Some 0%Z, emit (Stdout ("Task created: " ++ run_id)) w)
          else
            let w := emit (Stderr ("‚è≥ Running task " ++ run_id ++ "...")) w in
            match poll_task fuel run_id (Args.timeout args) w with
            | (None, w) => (None, w)
            | (Some (Raise e), w) => some_status (handler e w)
            | (Some (Ok result), w) =>
                some_status (print_result (Args.json args) result w)
            end
      end
  end.

End World.

(** The requests that a trace holds, oldest first. *)
Fixpoint requests (t : list event) : list dict :=
  match t with
  | [] => []
  | Created params :: rest => params :: requests rest
  | _ :: rest => requests rest
  end.

(** Reading a nested dictionary along a path of keys. *)
Fixpoint lookup (path : list string) (v : value) : option value :=
  match path, v with
  | [], _ => Some v
  | k :: rest, VDict d =>
      match get k d with Some v' => lookup rest v' | None => None end
  | _ :: _, _ => None
  end.

(** Every property of a schema is [{"type": "string", ...}]. *)
Definition typed_string (props : dict) : bool :=
  forallb (fun kv => match lookup ["type"] (snd kv) with
                     | Some (VStr t) => String.eqb t "string"
                     | _ => false
                     end) props.

(** The description of an output field in a task spec. *)
Definition description_of (task_spec : dict) (field : string) : option value :=
  lookup ["output_schema"; "json_schema"; "properties"; field; "description"]
         (VDict task_spec).

(** A result whose output is free text, and one whose output is an object. *)
Definition text_result (r : Run) (s : string) (b : attr_list Basis) : Result :=
  {| run := r;
     output := Some {| type := "text"; content := VStr s; basis := b |} |}.

Definition json_result (r : Run) (d : dict) (b : attr_list Basis) : Result :=
  {| run := r;
     output := Some {| type := "json"; content := VDict d; basis := b |} |}.

(** Sample data for the concrete checks. *)
Module Sample.

(** A string of [n] letters. *)
Definition letters (n : nat) : string :=
  string_of_list_ascii (repeat "a"%char n).

Definition a_run : Run :=
  {| run_id := "trun_1"; status := "completed"; processor := "core" |}.

(** A [repr] that is enough for the values of the samples. *)
Definition repr (v : value) : string :=
  match v with
  | VNone => "None"
  | VBool true => "True"
  | VBool false => "False"
  | VInt z => str_int z
  | VStr s => "'" ++ s ++ "'"
  | VList _ => "[...]"
  | VDict _ => "{...}"
  end.

(** A basis entry that has none of its optional attributes. *)
Definition bare_basis : Basis :=
  {| field := None; confidence := None; citations := Missing |}.

Definition a_result : Result :=
  {| run := a_run;
     output := Some {| type := "text"; content := VStr "ok";
                       basis := Items [bare_basis] |} |}.

(** A clock that is read every two seconds. *)
Definition now (k : nat) : Q := inject_Z (1700000000 + 2 * Z.of_nat k).

(** A service whose run is queued, then running, then completed. *)
Definition retrieve (k : nat) (id : string) : res Result :=
  Ok {| run := {| run_id := id;
                  status := match k with
                            | 0 => "queued"
                            | 1 => "running"
                            | _ => "completed"
                            end;
                  processor := "core" |};
        output := Some {| type := "text"; content := VStr "ok";
                          basis := Missing |} |}.

(** A service whose run never leaves the queue. *)
Definition stuck (k : nat) (id : string) : res Result :=
  Ok {| run := {| run_id := id; status := "queued"; processor := "core" |};
        output := None |}.

Definition repr_run (r : Run) : string :=
  "Run(run_id='" ++ run_id r ++ "', status='" ++ status r ++ "')".

Definition w0 : world := {| reads := 0; polls := 0; trace := [] |}.

Definition create (params : dict) : res TaskRun := Ok (WithRun a_run).

Definition json_dumps (doc : dict) : string := repr (VDict doc).

(** [--report -p base Market analysis of HVAC industry] *)
Definition report_args : Args.t :=
  {| Args.query := ["Market"; "analysis"; "of"; "HVAC"; "industry"];
     Args.processor := "base";
     Args.enrich := None;
     Args.output := None;
     Args.report := true;
     Args.include_domains := None;
     Args.exclude_domains := None;
     Args.browseruse_key := None;
     Args.timeout := 300;
     Args.json := false;
     Args.no_wait := false |}.

End Sample.

(** The first three entries of the JSON document. *)
Definition run_entries (r : Run) : dict :=
  [("run_id", VStr (run_id r)); ("status", VStr (status r));
   ("processor", VStr (processor r))].

Definition output_entry (o : Output) : string * value :=
  ("output", VDict [("type", VStr (type o)); ("content", content o)]).

Definition or_null (a : option value) : value :=
  match a with Some v => v | None => VNone end.

(** One turn of the poll loop that settles nothing: a retrieval, then the
    two-second sleep. *)
Definition round (run_id : string) : list event := [Retrieved run_id; Slept 2].

Fixpoint rounds (run_id : string) (n : nat) : list event :=
  match n with
  | O => []
  | S n' => (round run_id ++ rounds run_id n')%list
  end.

(** The world after [n] such turns. *)
Definition advance (run_id : string) (n : nat) (w : world) : world :=
  {| reads := reads w + n;
     polls := polls w + n;
     trace := (trace w ++ rounds run_id n)%list |}.

(** A status that ends the polling. *)
Definition terminal (s : string) : bool :=
  String.eqb s "completed" || String.eqb s "failed".

(** Turn [i] of a poll loop entered in [w] settles nothing: the clock read
    at its head is within the budget and the service answers with a status
    that is not terminal. *)
Definition pending (now : nat -> Q) (retrieve : nat -> string -> res Result)
    (run_id : string) (timeout : Z) (start : Q) (w : world) (i : nat) : Prop :=
  (now (reads w + i)%nat - start < inject_Z timeout)%Q
  /\ exists result,
       retrieve (polls w + i) run_id = Ok result
       /\ terminal (status (run result)) = false.

(** What the script writes to standard output, oldest first: the texts
    that it prints, and the help of the parser, which [print_help] writes
    there as well. *)
Fixpoint stdout_of (t : list event) : list event :=
  match t with
  | [] => []
  | Stdout text :: rest => Stdout text :: stdout_of rest
  | Help :: rest => Help :: stdout_of rest
  | _ :: rest => stdout_of rest
  end.

(** The server descriptor that [main] builds for a browser-use key. *)
Definition browseruse_server (key : string) : value :=
  VDict [("type", VStr "url");
         ("url", VStr "https://api.browser-use.com/mcp");
         ("name", VStr "browseruse");
         ("headers", VDict [("Authorization", VStr ("Bearer " ++ key))])].

(** More sample data: command lines. *)
Module Cases.

(** [task.py What is X --include-domains " nxp.com ,docs.nxp.com"
    --browseruse-key bu_1 --no-wait] *)
Definition plain_args : Args.t :=
  {| Args.query := ["What"; "is"; "X"];
     Args.processor := "core";
     Args.enrich := None;
     Args.output := None;
     Args.report := false;
     Args.include_domains := Some " nxp.com ,docs.nxp.com";
     Args.exclude_domains := None;
     Args.browseruse_key := Some "bu_1";
     Args.timeout := 300;
     Args.json := false;
     Args.no_wait := true |}.

(** [task.py --report -p base --enrich "company_name=Stripe"
    --output "founding_year,funding" ignored words] *)
Definition enrich_args : Args.t :=
  {| Args.query := ["ignored"; "words"];
     Args.processor := "base";
     Args.enrich := Some "company_name=Stripe";
     Args.output := Some "founding_year,funding";
     Args.report := true;
     Args.include_domains := None;
     Args.exclude_domains := None;
     Args.browseruse_key := None;
     Args.timeout := 300;
     Args.json := true;
     Args.no_wait := false |}.

(** [task.py --enrich "company_name=Stripe"]: the output fields are
    missing. *)
Definition bad_enrich_args : Args.t :=
  {| Args.query := [];
     Args.processor := "core";
     Args.enrich := Some "company_name=Stripe";
     Args.output := None;
     Args.report := false;
     Args.include_domains := None;
     Args.exclude_domains := None;
     Args.browseruse_key := None;
     Args.timeout := 300;
     Args.json := false;
     Args.no_wait := false |}.

(** [task.py] with nothing after it, and [BROWSERUSE_API_KEY] unset. *)
Definition no_args : Args.t :=
  {| Args.query := [];
     Args.processor := "core";
     Args.enrich := None;
     Args.output := None;
     Args.report := false;
     Args.include_domains := None;
     Args.exclude_domains := None;
     Args.browseruse_key := None;
     Args.timeout := 300;
     Args.json := false;
     Args.no_wait := false |}.

(** [task.py --browseruse-key "" Find the docs]: an empty key flag. *)
Definition empty_key_args : Args.t :=
  {| Args.query := ["Find"; "the"; "docs"];
     Args.processor := "core";
     Args.enrich := None;
     Args.output := None;
     Args.report := false;
     Args.include_domains := None;
     Args.exclude_domains := None;
     Args.browseruse_key := Some EmptyString;
     Args.timeout := 300;
     Args.json := false;
     Args.no_wait := false |}.

(** A service that answers once and then fails. *)
Definition flaky (k : nat) (id : string) : res Result :=
  match k with
  | 0 => Sample.stuck k id
  | _ => Raise (ApiError "503")
  end.

(** A citation with both attributes, and a basis entry on a field. *)
Definition cite (n : string) : Citation :=
  {| title := Some (VStr ("Page " ++ n));
     url := Some (VStr ("https://example.com/" ++ n)) |}.

Definition entry (name : string) : Basis :=
  {| field := Some (VStr name);
     confidence := Some (VStr "high");
     citations := Items [cite "1"; cite "2"; cite "3"] |}.

(** A basis entry whose citations hold [None]. *)
Definition broken_entry : Basis :=
  {| field := Some (VStr "f6"); confidence := None; citations := IsNone |}.

(** A result with six basis entries, the sixth one broken. *)
Definition long_result : Result :=
  {| run := Sample.a_run;
     output :=
       Some {| type := "json";
               content := VDict [("funding", VStr "$2B")];
               basis := Items [entry "f1"; entry "f2"; entry "f3"; entry "f4";
                               entry "f5"; broken_entry] |} |}.

(** A text output whose content is an object. *)
Definition ill_typed_result : Result :=
  {| run := Sample.a_run;
     output := Some {| type := "text";
                       content := VDict [("funding", VStr "$2B")];
                       basis := Missing |} |}.

(** An output with seven basis entries of three citations each. *)
Definition cited_output : Output :=
  {| type := "json"; content := VDict [];
     basis := Items [entry "f1"; entry "f2"; entry "f3"; entry "f4";
                     entry "f5"; entry "f6"; entry "f7"] |}.

Definition cited_result : Result :=
  {| run := Sample.a_run; output := Some cited_output |}.

(** A service whose run is queued and then fails. *)
Definition failing (k : nat) (id : string) : res Result :=
  Ok {| run := {| run_id := id;
                  status := match k with 0 => "queued" | _ => "failed" end;
                  processor := "core" |};
        output := None |}.

(** A wall clock that is set back ten seconds right after the first
    reading, and then goes on two seconds a reading. *)
Definition stepped_back (k : nat) : Q :=
  match k with
  | 0 => inject_Z 1700000010
  | S k' => inject_Z (1700000000 + 2 * Z.of_nat k')
  end.

(** A basis entry with everything in it, and a result with such an entry
    and a bare one. *)
Definition full_entry : Basis :=
  {| field := Some (VStr "funding");
     confidence := Some (VStr "high");
     citations := Items [cite "1"] |}.

Definition mixed_result : Result :=
  {| run := Sample.a_run;
     output := Some {| type := "json";
                       content := VDict [("funding", VStr "$2B")];
                       basis := Items [full_entry; Sample.bare_basis] |} |}.

(** A service that refuses every request. *)
Definition refuse (params : dict) : res TaskRun := Raise (ApiError "401").

End Cases.

(** When the renderers go through: a citation has its title and its url, a
    basis entry has citations that are missing or a list of such citations
    (the human renderer looks at the first two, the JSON renderer at all),
    and a text output has a string as content. *)
Definition citation_ok (c : Citation) : bool :=
  match title c, url c with
  | Some _, Some _ => true
  | _, _ => false
  end.

Definition basis_ok (limit : list Citation -> list Citation) (b : Basis) : bool :=
  match citations b with
  | Missing => true
  | IsNone => false
  | Items l => forallb citation_ok (limit l)
  end.

Definition content_ok (o : Output) : bool :=
  match content o with
  | VStr _ => true
  | _ => negb (String.eqb (type o) "text")
  end.

Definition human_ok (result : Result) : bool :=
  match output result with
  | None => true
  | Some o =>
      content_ok o
      && match basis o with
         | Items l => forallb (basis_ok (firstn 2)) (firstn 5 l)
         | _ => true
         end
  end.

Definition json_ok (result : Result) : bool :=
  match output result with
  | None => true
  | Some o =>
      match basis o with
      | Missing => true
      | IsNone => false
      | Items l => forallb (basis_ok (fun l => l)) l
      end
  end.

(** * Properties *)

(** ** Dictionaries *)

Lemma get_set_eq {A} (k : string) (v : A) (d : list (string * A)) :
  get k (set k v d) = Some v.
Proof.
  induction d as [|[k' v'] d IH]; simpl.
  - now rewrite String.eqb_refl.
  - destruct (String.eqb k k') eqn:E; simpl.
    + now rewrite String.eqb_refl.
    + now rewrite E.
Qed.

Lemma get_set_neq {A} (k k' : string) (v : A) (d : list (string * A)) :
  k <> k' -> get k' (set k v d) = get k' d.
Proof.
  intros Hne. induction d as [|[k0 v0] d IH]; simpl.
  - destruct (String.eqb k' k) eqn:E; [|reflexivity].
    apply String.eqb_eq in E. congruence.
  - destruct (String.eqb k k0) eqn:E; simpl.
    + apply String.eqb_eq in E. subst k0.
      destruct (String.eqb k' k) eqn:E'; [|reflexivity].
      apply String.eqb_eq in E'. congruence.
    + now rewrite IH.
Qed.

Lemma length_set_le {A} (k : string) (v : A) (d : list (string * A)) :
  List.length (set k v d) <= S (List.length d).
Proof.
  induction d as [|[k' v'] d IH]; simpl; [lia|].
  destruct (String.eqb k k'); simpl; lia.
Qed.

Lemma in_set_inv {A} (k : string) (v : A) (d : list (string * A)) (p : string * A) :
  In p (set k v d) -> p = (k, v) \/ In p d.
Proof.
  induction d as [|[k' v'] d IH]; simpl.
  - intros [H|[]]; auto.
  - destruct (String.eqb k k'); simpl.
    + intros [H|H]; auto.
    + intros [H|H]; auto. destruct (IH H); auto.
Qed.

(** ** Schema builder *)

(** C2: the enrichment spec of ["a=1,b=2"] and ["x,y"] has input data
    [{a: "1", b: "2"}], an input schema that requires exactly [a] and [b], an
    output schema that requires exactly [x] and [y], string-typed properties
    throughout and [additionalProperties] false on both schemas. *)
Theorem build_enrichment_spec_round_trip :
  let '(input_data, task_spec) := build_enrichment_spec "a=1,b=2" "x,y" in
  input_data = [("a", "1"); ("b", "2")]
  /\ lookup ["input_schema"; "json_schema"; "required"] (VDict task_spec)
     = Some (VList [VStr "a"; VStr "b"])
  /\ lookup ["output_schema"; "json_schema"; "required"] (VDict task_spec)
     = Some (VList [VStr "x"; VStr "y"])
  /\ (exists props,
        lookup ["input_schema"; "json_schema"; "properties"] (VDict task_spec)
        = Some (VDict props)
        /\ keys props = ["a"; "b"] /\ typed_string props = true)
  /\ (exists props,
        lookup ["output_schema"; "json_schema"; "properties"] (VDict task_spec)
        = Some (VDict props)
        /\ keys props = ["x"; "y"] /\ typed_string props = true)
  /\ lookup ["input_schema"; "json_schema"; "additionalProperties"]
       (VDict task_spec) = Some (VBool false)
  /\ lookup ["output_schema"; "json_schema"; "additionalProperties"]
       (VDict task_spec) = Some (VBool false).
Proof.
  vm_compute. repeat split; try reflexivity.
  - eexists. repeat split; reflexivity.
  - eexists. repeat split; reflexivity.
Qed.

Lemma input_step_without_equals (acc : list (string * string) * dict) (pair : string) :
  contains equals pair = false -> input_step acc pair = acc.
Proof. intros H. unfold input_step. now rewrite H. Qed.

Lemma fold_input_step_filter (toks : list string) (acc : list (string * string) * dict) :
  fold_left input_step toks acc
  = fold_left input_step (filter (contains equals) toks) acc.
Proof.
  revert acc. induction toks as [|tok toks IH]; intros acc; simpl; [reflexivity|].
  destruct (contains equals tok) eqn:E; simpl.
  - apply IH.
  - rewrite (input_step_without_equals _ _ E). apply IH.
Qed.

Lemma input_step_length (acc : list (string * string) * dict) (pair : string) :
  List.length (fst (input_step acc pair))
  <= List.length (fst acc) + (if contains equals pair then 1 else 0).
Proof.
  unfold input_step. destruct (contains equals pair); [|lia].
  destruct (split1 equals pair) as [[key val]|]; simpl; [|lia].
  pose proof (length_set_le (strip key) (strip val) (fst acc)). lia.
Qed.

Lemma fold_input_step_length (toks : list string) (acc : list (string * string) * dict) :
  List.length (fst (fold_left input_step toks acc))
  <= List.length (fst acc) + List.length (filter (contains equals) toks).
Proof.
  revert acc. induction toks as [|tok toks IH]; intros acc; simpl; [lia|].
  specialize (IH (input_step acc tok)).
  pose proof (input_step_length acc tok) as Hs.
  destruct (contains equals tok); simpl; lia.
Qed.

Lemma fold_input_step_origin (toks : list string) (acc : list (string * string) * dict)
    (k v : string) :
  In (k, v) (fst (fold_left input_step toks acc)) ->
  In (k, v) (fst acc)
  \/ exists tok key val,
       In tok toks /\ contains equals tok = true
       /\ split1 equals tok = Some (key, val)
       /\ k = strip key /\ v = strip val.
Proof.
  revert acc. induction toks as [|tok toks IH]; intros acc; simpl; [auto|].
  intros H. destruct (IH _ H) as [Hacc|(tok' & key & val & Hin & Hrest)].
  - unfold input_step in Hacc.
    destruct (contains equals tok) eqn:E; [|auto].
    destruct (split1 equals tok) as [[key val]|] eqn:E1; [|auto].
    simpl in Hacc. apply in_set_inv in Hacc. destruct Hacc as [Heq|Hold]; [|auto].
    right. exists tok, key, val. inversion Heq. auto.
  - right. exists tok', key, val. auto.
Qed.

Lemma fst_build_enrichment_spec (input_fields output_fields : string) :
  fst (build_enrichment_spec input_fields output_fields)
  = fst (parse_inputs input_fields).
Proof.
  unfold build_enrichment_spec. now destruct (parse_inputs input_fields).
Qed.

(** C8: a comma-separated token without ['='] contributes nothing to
    [input_data]: the input data is the one built from the tokens that hold
    ['='], each of its entries comes from such a token, and it has at most
    as many entries as there are tokens. *)
Theorem input_data_skips_tokens_without_equals :
  forall input_fields output_fields : string,
    let tokens := split comma input_fields in
    let input_data := fst (build_enrichment_spec input_fields output_fields) in
    input_data
    = fst (fold_left input_step (filter (contains equals) tokens) ([], []))
    /\ (forall k v, In (k, v) input_data ->
          exists tok key val,
            In tok tokens /\ contains equals tok = true
            /\ split1 equals tok = Some (key, val)
            /\ k = strip key /\ v = strip val)
    /\ List.length input_data <= List.length tokens.
Proof.
  intros input_fields output_fields tokens input_data.
  unfold input_data. rewrite fst_build_enrichment_spec. unfold parse_inputs.
  fold tokens. repeat split.
  - now rewrite fold_input_step_filter.
  - intros k v H. apply fold_input_step_origin in H.
    destruct H as [[]|H]; exact H.
  - pose proof (fold_input_step_length tokens ([], [])) as H. simpl in H.
    pose proof (filter_length_le (contains equals) tokens). lia.
Qed.

Lemma input_data_skips_tokens_without_equals_witness :
  fst (build_enrichment_spec "company_name=Stripe,website,year=2010" "funding")
  = [("company_name", "Stripe"); ("year", "2010")]
  /\ List.length
       (fst (build_enrichment_spec "company_name=Stripe,website,year=2010"
                                   "funding"))
     <= 3.
Proof.
  destruct (input_data_skips_tokens_without_equals
              "company_name=Stripe,website,year=2010" "funding")
    as (Heq & _ & Hlen).
  split; [rewrite Heq; reflexivity|exact Hlen].
Defined.

Lemma output_step_get_same (acc : dict) (tok k : string) :
  get k acc = Some (output_prop k) ->
  get k (output_step acc tok) = Some (output_prop k).
Proof.
  intros H. unfold output_step. destruct (truthy_str (strip tok)); [|exact H].
  destruct (string_dec (strip tok) k) as [->|Hne].
  - apply get_set_eq.
  - now rewrite get_set_neq.
Qed.

Lemma fold_output_step_keeps (toks : list string) (acc : dict) (k : string) :
  get k acc = Some (output_prop k) ->
  get k (fold_left output_step toks acc) = Some (output_prop k).
Proof.
  revert acc. induction toks as [|tok toks IH]; intros acc H; simpl; [exact H|].
  apply IH. now apply output_step_get_same.
Qed.

Lemma fold_output_step_get (toks : list string) (acc : dict) (tok : string) :
  In tok toks -> strip tok <> EmptyString ->
  get (strip tok) (fold_left output_step toks acc)
  = Some (output_prop (strip tok)).
Proof.
  revert acc. induction toks as [|t toks IH]; intros acc Hin Hne; [easy|].
  destruct Hin as [->|Hin]; simpl.
  - apply fold_output_step_keeps. unfold output_step.
    destruct (strip tok) eqn:E; [congruence|]. simpl. apply get_set_eq.
  - now apply IH.
Qed.

Lemma description_of_build (input_fields output_fields field : string) :
  description_of (snd (build_enrichment_spec input_fields output_fields)) field
  = match get field (parse_outputs output_fields) with
    | Some v => lookup ["description"] v
    | None => None
    end.
Proof.
  unfold build_enrichment_spec. destruct (parse_inputs input_fields).
  reflexivity.
Qed.

(** C4, as the code has it: every non-empty output field gets the
    description ["The <field, underscores as spaces> of the entity"]. *)
Theorem output_description_of_the_entity :
  forall input_fields output_fields tok : string,
    In tok (split comma output_fields) ->
    strip tok <> EmptyString ->
    description_of (snd (build_enrichment_spec input_fields output_fields))
                   (strip tok)
    = Some (VStr ("The " ++ replace underscore space (strip tok)
                         ++ " of the entity")).
Proof.
  intros input_fields output_fields tok Hin Hne.
  rewrite description_of_build. unfold parse_outputs.
  now rewrite (fold_output_step_get _ [] tok Hin Hne).
Qed.

Lemma output_description_of_the_entity_witness :
  description_of (snd (build_enrichment_spec "company_name=Stripe"
                                             "founding_year, funding"))
                 "funding"
  = Some (VStr "The funding of the entity").
Proof.
  apply (output_description_of_the_entity
           "company_name=Stripe" "founding_year, funding" " funding").
  - simpl. auto.
  - discriminate.
Defined.

(** C4, as the spec words it, fails: the description of [founding_year] is
    not ["The founding year"]. *)
Lemma output_description_is_not_bare :
  description_of (snd (build_enrichment_spec "company_name=Stripe"
                                             "founding_year"))
                 "founding_year"
  = Some (VStr "The founding year of the entity")
  /\ description_of (snd (build_enrichment_spec "company_name=Stripe"
                                                "founding_year"))
                    "founding_year"
     <> Some (VStr ("The " ++ replace underscore space "founding_year")).
Proof. split; [reflexivity|discriminate]. Qed.

(** ** Task submitter *)

Lemma get_source_policy (input_data : value) (processor : string)
    (task_spec : option dict) (include_domains exclude_domains : option (list string))
    (mcp : option (list value)) :
  get "source_policy"
      (create_task_params input_data processor task_spec
         include_domains exclude_domains mcp)
  = if truthy_list include_domains || truthy_list exclude_domains
    then Some (VDict (source_policy include_domains exclude_domains))
    else None.
Proof.
  unfold create_task_params.
  destruct (truthy_list include_domains || truthy_list exclude_domains);
    destruct task_spec as [[|? ?]|]; destruct mcp as [[|? ?]|]; reflexivity.
Qed.

Lemma keys_source_policy (include_domains exclude_domains : option (list string)) :
  keys (source_policy include_domains exclude_domains)
  = ((if truthy_list include_domains then ["include_domains"] else [])
     ++ (if truthy_list exclude_domains then ["exclude_domains"] else []))%list.
Proof.
  unfold source_policy.
  destruct (truthy_list include_domains), (truthy_list exclude_domains);
    reflexivity.
Qed.

Example request_holds_whole_task_spec :
  create_task_params (VStr "q") "core" (Some text_spec) None None
    (mcp_servers (Some "k"))
  = [("input", VStr "q"); ("processor", VStr "core");
     ("task_spec", VDict [("output_schema", VDict [("type", VStr "text")])]);
     ("mcp_servers",
      VList [VDict [("type", VStr "url");
                    ("url", VStr "https://api.browser-use.com/mcp");
                    ("name", VStr "browseruse");
                    ("headers", VDict [("Authorization", VStr "Bearer k")])]]);
     ("betas", VList [VStr "mcp-server-2025-07-17"])].
Proof. reflexivity. Qed.

(** C7: the request holds [source_policy] exactly when one of the two
    domain lists is non-empty, and the policy then holds exactly the keys of
    the non-empty lists, each bound to its list. *)
Theorem source_policy_iff_domains :
  forall (input_data : value) (processor : string) (task_spec : option dict)
         (include_domains exclude_domains : option (list string))
         (mcp : option (list value)),
    let params :=
      create_task_params input_data processor task_spec
        include_domains exclude_domains mcp in
    (get "source_policy" params <> None
     <-> truthy_list include_domains = true
         \/ truthy_list exclude_domains = true)
    /\ (forall v, get "source_policy" params = Some v ->
          exists policy,
            v = VDict policy
            /\ (forall k, In k (keys policy)
                  <-> (k = "include_domains"
                       /\ truthy_list include_domains = true)
                      \/ (k = "exclude_domains"
                          /\ truthy_list exclude_domains = true))
            /\ (truthy_list include_domains = true ->
                get "include_domains" policy = Some (domains include_domains))
            /\ (truthy_list exclude_domains = true ->
                get "exclude_domains" policy = Some (domains exclude_domains))).
Proof.
  intros input_data processor task_spec inc exc mcp params.
  unfold params. rewrite get_source_policy. split.
  - destruct (truthy_list inc), (truthy_list exc); simpl;
      intuition (discriminate || congruence).
  - intros v Hv. exists (source_policy inc exc).
    assert (Hpol : v = VDict (source_policy inc exc)).
    { destruct (truthy_list inc || truthy_list exc); congruence. }
    clear Hv. split; [exact Hpol|]. rewrite keys_source_policy.
    unfold source_policy.
    destruct (truthy_list inc), (truthy_list exc); simpl;
      (split; [|split; intros; (reflexivity || discriminate)]);
      intros k; intuition (discriminate || congruence || auto).
Qed.

Lemma source_policy_iff_domains_witness :
  exists policy,
    get "source_policy"
        (create_task_params (VStr "q") "core" None (Some ["nxp.com"]) (Some [])
                            None)
    = Some (VDict policy)
    /\ get "include_domains" policy = Some (VList [VStr "nxp.com"])
    /\ ~ In "exclude_domains" (keys policy).
Proof.
  destruct (source_policy_iff_domains (VStr "q") "core" None (Some ["nxp.com"])
              (Some []) None) as [_ H].
  destruct (H _ eq_refl) as (policy & Hv & Hkeys & Hinc & _).
  exists policy. split; [rewrite <- Hv; reflexivity|].
  split; [exact (Hinc eq_refl)|].
  intros Hin. apply Hkeys in Hin.
  destruct Hin as [[Hk _]|[_ Hk]]; discriminate.
Defined.

(** ** Result formatter *)

Lemma length_take (n : nat) (s : string) :
  n <= String.length s -> String.length (take n s) = n.
Proof.
  revert s. induction n as [|n IH]; intros s H; [reflexivity|].
  destruct s as [|a s]; simpl in *; [lia|]. rewrite IH; lia.
Qed.

Lemma take_prefix (n : nat) (s : string) :
  exists rest, s = take n s ++ rest
               /\ String.length rest = String.length s - n.
Proof.
  revert s. induction n as [|n IH]; intros s.
  - exists s. simpl. split; [reflexivity|lia].
  - destruct s as [|a s]; simpl.
    + exists EmptyString. auto.
    + destruct (IH s) as (rest & Hs & Hl). exists rest.
      split; [now rewrite <- Hs|exact Hl].
Qed.

(** C3: free text of 2000 characters is printed as it is, free text of 2001
    characters is cut to its first 2000 characters with ["..."] after them;
    a field of an object output is printed as it is at 200 characters and
    cut to its first 200 with ["..."] after them at 201. *)
Theorem truncation_boundaries :
  forall (repr : value -> string) (r : Run) (b : attr_list Basis),
    (forall s, String.length s = 2000 ->
       format_result repr (text_result r s b)
       = (cites <- citation_block repr {| type := "text"; content := VStr s;
                                          basis := b |} ;;
          Ok (join newline (header r ++ ["**Report:**"; s] ++ cites)%list)))
    /\ (forall s, String.length s = 2001 ->
          format_result repr (text_result r s b)
          = (cites <- citation_block repr {| type := "text"; content := VStr s;
                                             basis := b |} ;;
             Ok (join newline
                   (header r ++ ["**Report:**"; (take 2000 s ++ "...")%string]
                             ++ cites)%list))
          /\ String.length (take 2000 s) = 2000
          /\ exists last, s = take 2000 s ++ last /\ String.length last = 1)
    /\ (forall d,
          format_result repr (json_result r d b)
          = (cites <- citation_block repr {| type := "json"; content := VDict d;
                                             basis := b |} ;;
             Ok (join newline
                   (header r ++ ("**Results:**" :: map (result_line repr) d)
                             ++ cites)%list)))
    /\ (forall key v, String.length (str repr v) = 200 ->
          result_line repr (key, v)
          = "  " ++ bullet ++ " " ++ key ++ ": " ++ str repr v)
    /\ (forall key v, String.length (str repr v) = 201 ->
          result_line repr (key, v)
          = "  " ++ bullet ++ " " ++ key ++ ": "
                 ++ take 200 (str repr v) ++ "..."
          /\ String.length (take 200 (str repr v)) = 200
          /\ exists last, str repr v = take 200 (str repr v) ++ last
                          /\ String.length last = 1).
Proof.
  intros repr r b. repeat apply conj.
  - intros s H. unfold format_result, text_result, content_lines. simpl.
    rewrite H. reflexivity.
  - intros s H. split; [|split].
    + unfold format_result, text_result, content_lines. simpl.
      rewrite H. reflexivity.
    + apply length_take. lia.
    + destruct (take_prefix 2000 s) as (rest & Hs & Hl).
      exists rest. split; [exact Hs|]. rewrite Hl, H. reflexivity.
  - intros d. reflexivity.
  - intros key v H. unfold result_line. simpl. rewrite H. reflexivity.
  - intros key v H. split; [|split].
    + unfold result_line. simpl. rewrite H. reflexivity.
    + apply length_take. lia.
    + destruct (take_prefix 200 (str repr v)) as (rest & Hs & Hl).
      exists rest. split; [exact Hs|]. rewrite Hl, H. reflexivity.
Qed.

Lemma truncation_boundaries_witness :
  format_result Sample.repr
    (text_result Sample.a_run (Sample.letters 2000) Missing)
  = Ok (join newline
          (header Sample.a_run ++ ["**Report:**"; Sample.letters 2000])%list)
  /\ format_result Sample.repr
       (text_result Sample.a_run (Sample.letters 2001) Missing)
     = Ok (join newline
             (header Sample.a_run
                ++ ["**Report:**"; (Sample.letters 2000 ++ "...")%string])%list)
  /\ result_line Sample.repr ("name", VStr (Sample.letters 200))
     = "  " ++ bullet ++ " name: " ++ Sample.letters 200
  /\ result_line Sample.repr ("name", VStr (Sample.letters 201))
     = "  " ++ bullet ++ " name: " ++ Sample.letters 200 ++ "...".
Proof.
  destruct (truncation_boundaries Sample.repr Sample.a_run Missing)
    as (H2000 & H2001 & _ & H200 & H201).
  repeat apply conj.
  - rewrite (H2000 (Sample.letters 2000)); [|vm_compute; reflexivity].
    vm_compute; reflexivity.
  - destruct (H2001 (Sample.letters 2001)) as (H & _);
      [vm_compute; reflexivity|].
    rewrite H. vm_compute; reflexivity.
  - rewrite (H200 "name" (VStr (Sample.letters 200)));
      [|vm_compute; reflexivity].
    vm_compute; reflexivity.
  - destruct (H201 "name" (VStr (Sample.letters 201))) as (H & _);
      [vm_compute; reflexivity|].
    rewrite H. vm_compute; reflexivity.
Defined.

(** ** JSON renderer *)

Lemma traverse_citation_json (l : list Citation) :
  Forall (fun c => title c <> None /\ url c <> None) l ->
  traverse citation_json l
  = Ok (map (fun c => VDict [("title", or_null (title c));
                             ("url", or_null (url c))]) l).
Proof.
  induction 1 as [|c l [Ht Hu] _ IH]; [reflexivity|].
  simpl. unfold citation_json at 1.
  destruct (title c) as [t|]; [|congruence].
  destruct (url c) as [u|]; [|congruence].
  simpl. now rewrite IH.
Qed.

Lemma traverse_basis_json_bare (l : list Basis) :
  Forall (fun b => citations b = Missing) l ->
  traverse basis_json l
  = Ok (map (fun b => VDict [("field", or_null (field b));
                             ("confidence", or_null (confidence b));
                             ("citations", VList [])]) l).
Proof.
  induction 1 as [|b l Hm _ IH]; [reflexivity|].
  simpl. unfold basis_json at 1. rewrite Hm. simpl. now rewrite IH.
Qed.

(** C5, as the code has it: the document holds run id, status and
    processor; it holds the output type and content exactly when there is
    an output; a basis list is expanded entry by entry into the field, the
    confidence and the citations of the entry, each citation with its title
    and url, a missing [field] or [confidence] becoming null and missing
    [citations] the empty list; a missing output or a missing basis raises
    nothing in either renderer. *)
Theorem json_document_shape :
  forall result : Result,
    (forall doc, json_document result = Ok doc ->
       get "run_id" doc = Some (VStr (run_id (run result)))
       /\ get "status" doc = Some (VStr (status (run result)))
       /\ get "processor" doc = Some (VStr (processor (run result)))
       /\ get "output" doc
          = match output result with
            | Some o => Some (snd (output_entry o))
            | None => None
            end)
    /\ (output result = None ->
          json_document result = Ok (run_entries (run result))
          /\ forall repr,
               format_result repr result
               = Ok (join newline (header (run result))))
    /\ (forall o, output result = Some o -> basis o = Missing ->
          json_document result
          = Ok (run_entries (run result) ++ [output_entry o])%list
          /\ forall repr,
               format_result repr result
               = (body <- content_lines repr o ;;
                  Ok (join newline (header (run result) ++ body)%list)))
    /\ (forall o l, output result = Some o -> basis o = Items l ->
          json_document result
          = (bs <- traverse basis_json l ;;
             Ok (run_entries (run result)
                   ++ [output_entry o; ("basis", VList bs)])%list))
    /\ (forall b, citations b = Missing ->
          basis_json b
          = Ok (VDict [("field", or_null (field b));
                       ("confidence", or_null (confidence b));
                       ("citations", VList [])]))
    /\ (forall b l, citations b = Items l ->
          Forall (fun c => title c <> None /\ url c <> None) l ->
          basis_json b
          = Ok (VDict [("field", or_null (field b));
                       ("confidence", or_null (confidence b));
                       ("citations",
                        VList (map (fun c =>
                                      VDict [("title", or_null (title c));
                                             ("url", or_null (url c))]) l))]))
    /\ (forall o l, output result = Some o -> basis o = Items l ->
          Forall (fun b => citations b = Missing) l ->
          json_document result
          = Ok (run_entries (run result)
                  ++ [output_entry o;
                      ("basis",
                       VList (map (fun b =>
                                     VDict [("field", or_null (field b));
                                            ("confidence",
                                             or_null (confidence b));
                                            ("citations", VList [])]) l))])%list).
Proof.
  intros [r out]. repeat apply conj; simpl.
  - intros doc. unfold json_document. simpl.
    destruct out as [[t c [| |l]]|]; simpl.
    + intros H. inversion H. auto.
    + discriminate.
    + destruct (traverse basis_json l); simpl; [|discriminate].
      intros H. inversion H. auto.
    + intros H. inversion H. auto.
  - intros ->. split; [reflexivity|]. intros repr. reflexivity.
  - intros o -> Hb. unfold json_document, format_result, citation_block. simpl.
    rewrite Hb. split; [reflexivity|]. intros repr.
    destruct (content_lines repr o); simpl; [|reflexivity].
    now rewrite app_nil_r.
  - intros o l -> Hb. unfold json_document. simpl. rewrite Hb. reflexivity.
  - intros b Hb. unfold basis_json. rewrite Hb. reflexivity.
  - intros b l Hb Hall. unfold basis_json.
    rewrite Hb, (traverse_citation_json l Hall). reflexivity.
  - intros o l -> Hb Hall. unfold json_document. simpl. rewrite Hb.
    now rewrite (traverse_basis_json_bare l Hall).
Qed.

Lemma json_document_shape_witness :
  json_document Sample.a_result
  = Ok [("run_id", VStr "trun_1"); ("status", VStr "completed");
        ("processor", VStr "core");
        ("output", VDict [("type", VStr "text"); ("content", VStr "ok")]);
        ("basis", VList [VDict [("field", VNone); ("confidence", VNone);
                                ("citations", VList [])]])]
  /\ json_document Cases.mixed_result
     = Ok [("run_id", VStr "trun_1"); ("status", VStr "completed");
           ("processor", VStr "core");
           ("output", VDict [("type", VStr "json");
                             ("content", VDict [("funding", VStr "$2B")])]);
           ("basis",
            VList [VDict [("field", VStr "funding");
                          ("confidence", VStr "high");
                          ("citations",
                           VList [VDict [("title", VStr "Page 1");
                                         ("url",
                                          VStr "https://example.com/1")]])];
                   VDict [("field", VNone); ("confidence", VNone);
                          ("citations", VList [])]])]
  /\ basis_json Cases.full_entry
     = Ok (VDict [("field", VStr "funding"); ("confidence", VStr "high");
                  ("citations",
                   VList [VDict [("title", VStr "Page 1");
                                 ("url", VStr "https://example.com/1")]])]).
Proof.
  repeat apply conj.
  - destruct (json_document_shape Sample.a_result) as (_ & _ & _ & H & _).
    rewrite (H _ [Sample.bare_basis] eq_refl eq_refl). reflexivity.
  - destruct (json_document_shape Cases.mixed_result) as (_ & _ & _ & H & _).
    rewrite (H _ [Cases.full_entry; Sample.bare_basis] eq_refl eq_refl).
    reflexivity.
  - destruct (json_document_shape Sample.a_result)
      as (_ & _ & _ & _ & _ & H & _).
    rewrite (H Cases.full_entry [Cases.cite "1"] eq_refl).
    + reflexivity.
    + repeat constructor; discriminate.
Defined.

(** C5, as the spec words it, fails: missing citations do not become null. *)
Lemma missing_citations_are_not_null :
  json_document Sample.a_result
  = Ok [("run_id", VStr "trun_1"); ("status", VStr "completed");
        ("processor", VStr "core");
        ("output", VDict [("type", VStr "text"); ("content", VStr "ok")]);
        ("basis", VList [VDict [("field", VNone); ("confidence", VNone);
                                ("citations", VList [])]])]
  /\ json_document Sample.a_result
     <> Ok [("run_id", VStr "trun_1"); ("status", VStr "completed");
            ("processor", VStr "core");
            ("output", VDict [("type", VStr "text"); ("content", VStr "ok")]);
            ("basis", VList [VDict [("field", VNone); ("confidence", VNone);
                                    ("citations", VNone)]])].
Proof. split; [reflexivity|discriminate]. Qed.

(** A basis attribute that is there and holds [None] is skipped by
    [format_result], which tests its truth value, and raises in the JSON
    renderer, which tests [hasattr] alone. *)
Example none_basis :
  format_result Sample.repr
    {| run := Sample.a_run;
       output := Some {| type := "text"; content := VStr "ok";
                         basis := IsNone |} |}
  = Ok (join newline (header Sample.a_run ++ ["**Report:**"; "ok"])%list)
  /\ json_document
       {| run := Sample.a_run;
          output := Some {| type := "text"; content := VStr "ok";
                            basis := IsNone |} |}
     = Raise BuiltinError.
Proof. split; reflexivity. Qed.

(** ** Poller *)

Lemma world_eq (r r' p p' : nat) (t t' : list event) :
  r = r' -> p = p' -> t = t' ->
  {| reads := r; polls := p; trace := t |}
  = {| reads := r'; polls := p'; trace := t' |}.
Proof. now intros -> -> ->. Qed.

Lemma rounds_snoc (run_id : string) (n : nat) :
  rounds run_id (S n) = (rounds run_id n ++ round run_id)%list.
Proof.
  induction n as [|n IH]; [reflexivity|].
  change (rounds run_id (S (S n)))
    with (round run_id ++ rounds run_id (S n))%list.
  rewrite IH at 1. now rewrite app_assoc.
Qed.

Lemma advance_succ (run_id : string) (n : nat) (w : world) :
  emit (Slept 2) (emit (Retrieved run_id) (polled (tick (advance run_id n w))))
  = advance run_id (S n) w.
Proof.
  unfold advance, emit, polled, tick. cbn [reads polls trace].
  apply world_eq; [lia|lia|].
  rewrite rounds_snoc. unfold round. now rewrite <- !app_assoc.
Qed.

Lemma Qltb_true (a b : Q) : Qltb a b = true <-> (a < b)%Q.
Proof.
  unfold Qltb. rewrite negb_true_iff. split.
  - intros H. apply Qnot_le_lt. intros Hle.
    apply Qle_bool_iff in Hle. congruence.
  - intros H. destruct (Qle_bool b a) eqn:E; [|reflexivity].
    apply Qle_bool_iff in E. exfalso. exact (Qlt_not_le _ _ H E).
Qed.

Lemma Qltb_false (a b : Q) : Qltb a b = false <-> (b <= a)%Q.
Proof.
  unfold Qltb. rewrite negb_false_iff. apply Qle_bool_iff.
Qed.

Section PollerFacts.

Variable now : nat -> Q.
Variable retrieve : nat -> string -> res Result.
Variable repr_run : Run -> string.

Local Abbreviation loop := (poll_loop now retrieve repr_run).
Local Abbreviation poll := (poll_task now retrieve repr_run).

Lemma poll_loop_pending_step (fuel : nat) (run_id : string) (timeout : Z)
    (start : Q) (w : world) :
  pending now retrieve run_id timeout start w 0 ->
  loop (S fuel) run_id timeout start w
  = loop fuel run_id timeout start (advance run_id 1 w).
Proof.
  intros (Ht & result & Hr & Hs). rewrite !Nat.add_0_r in *.
  unfold poll_loop. simpl.
  apply Qltb_true in Ht. rewrite Ht, Hr.
  unfold terminal in Hs. apply orb_false_iff in Hs. destruct Hs as [-> ->].
  f_equal. unfold advance, emit, polled, tick. simpl.
  f_equal; [lia|lia|]. now rewrite <- app_assoc.
Qed.

Lemma advance_advance (run_id : string) (n : nat) (w : world) :
  advance run_id n (advance run_id 1 w) = advance run_id (S n) w.
Proof.
  unfold advance. simpl. f_equal; [lia|lia|].
  now rewrite <- !app_assoc.
Qed.

Lemma poll_loop_pending (n fuel : nat) (run_id : string) (timeout : Z)
    (start : Q) (w : world) :
  (forall i, i < n -> pending now retrieve run_id timeout start w i) ->
  loop (n + fuel) run_id timeout start w
  = loop fuel run_id timeout start (advance run_id n w).
Proof.
  revert w. induction n as [|n IH]; intros w H.
  - simpl. f_equal. unfold advance. destruct w. simpl.
    f_equal; [lia|lia|]. now rewrite app_nil_r.
  - change (S n + fuel) with (S (n + fuel)).
    rewrite poll_loop_pending_step by (apply H; lia).
    rewrite IH.
    + now rewrite advance_advance.
    + intros i Hi. specialize (H (S i) ltac:(lia)).
      unfold pending in *. simpl.
      replace (reads w + 1 + i) with (reads w + S i) by lia.
      replace (polls w + 1 + i) with (polls w + S i) by lia.
      exact H.
Qed.

Lemma poll_loop_timeout (fuel : nat) (run_id : string) (timeout : Z)
    (start : Q) (w : world) :
  (inject_Z timeout <= now (reads w) - start)%Q ->
  loop (S fuel) run_id timeout start w
  = (Some (Raise (TimeoutError (timeout_message run_id timeout))), tick w).
Proof.
  intros H. apply Qltb_false in H. unfold poll_loop. simpl. now rewrite H.
Qed.

Lemma poll_loop_retrieve (fuel : nat) (run_id : string) (timeout : Z)
    (start : Q) (w : world) :
  (now (reads w) - start < inject_Z timeout)%Q ->
  loop (S fuel) run_id timeout start w
  = let w' := emit (Retrieved run_id) (polled (tick w)) in
    match retrieve (polls w) run_id with
    | Raise e => (Some (Raise e), w')
    | Ok result =>
        if String.eqb (status (run result)) "completed" then
          (Some (Ok result), w')
        else if String.eqb (status (run result)) "failed" then
          (Some (Raise (Exception (failure_message repr_run (run result)))),
           w')
        else loop fuel run_id timeout start (emit (Slept 2) w')
    end.
Proof.
  intros H. apply Qltb_true in H. unfold poll_loop. simpl. now rewrite H.
Qed.

(** The loop is settled within the fuel that the budget calls for, when
    two seconds or more pass from one reading of the clock to the next
    (there is a sleep of two seconds between them). *)
Lemma poll_loop_settles (fuel : nat) (run_id : string) (timeout : Z)
    (start : Q) (w : world) :
  (forall k, now k + 2 <= now (S k))%Q ->
  (inject_Z timeout
   <= now (reads w) - start + 2 * inject_Z (Z.of_nat fuel))%Q ->
  fst (loop (S fuel) run_id timeout start w) <> None.
Proof.
  intros Hclock. revert w. induction fuel as [|fuel IH]; intros w Hb.
  - rewrite poll_loop_timeout; [discriminate|].
    change (inject_Z (Z.of_nat 0)) with 0%Q in Hb. lra.
  - destruct (Qlt_le_dec (now (reads w) - start) (inject_Z timeout))
      as [Hin|Hout].
    + rewrite poll_loop_retrieve by exact Hin. cbv zeta.
      destruct (retrieve (polls w) run_id) as [result|e]; [|discriminate].
      destruct (String.eqb (status (run result)) "completed");
        [discriminate|].
      destruct (String.eqb (status (run result)) "failed"); [discriminate|].
      apply IH. simpl. specialize (Hclock (reads w)).
      rewrite Nat2Z.inj_succ, <- Z.add_1_r, inject_Z_plus in Hb.
      change (inject_Z 1) with 1%Q in Hb. lra.
    + rewrite poll_loop_timeout by exact Hout. discriminate.
Qed.

Lemma poll_task_settles (run_id : string) (timeout : Z) (w : world) :
  (forall k, now k + 2 <= now (S k))%Q ->
  fst (poll (S (Z.to_nat timeout)) run_id timeout w) <> None.
Proof.
  intros Hclock. unfold poll_task. apply poll_loop_settles; [exact Hclock|].
  simpl. specialize (Hclock (reads w)).
  assert (Hz : (timeout <= Z.of_nat (Z.to_nat timeout))%Z) by lia.
  rewrite Zle_Qle in Hz.
  assert (H0 : (0 <= Z.of_nat (Z.to_nat timeout))%Z) by lia.
  rewrite Zle_Qle in H0. change (inject_Z 0) with 0%Q in H0. lra.
Qed.

End PollerFacts.

(** C1: a poll that has gone through [n] turns in which the status was
    neither ["completed"] nor ["failed"] has retrieved [n] times with a
    two-second sleep after each; in turn [n] it raises the timeout error
    when the elapsed time has reached the timeout, and otherwise retrieves
    once more and returns the result on ["completed"], raises with the
    detail of the run on ["failed"], and sleeps two seconds and goes on
    polling on any other status. *)
Theorem poll_task_outcomes :
  forall (now : nat -> Q) (retrieve : nat -> string -> res Result)
         (repr_run : Run -> string)
         (run_id : string) (timeout : Z) (w : world) (n fuel : nat),
    let start := now (reads w) in
    let t := now (reads w + 1 + n) in
    let w_n := advance run_id n (tick w) in
    let w' := emit (Retrieved run_id) (polled (tick w_n)) in
    n < fuel ->
    (forall i, i < n -> pending now retrieve run_id timeout start (tick w) i) ->
    ((inject_Z timeout <= t - start)%Q ->
       poll_task now retrieve repr_run fuel run_id timeout w
       = (Some (Raise (TimeoutError
                         ("Task " ++ run_id ++ " did not complete within "
                                  ++ str_int timeout ++ "s"))),
          tick w_n))
    /\ ((t - start < inject_Z timeout)%Q ->
        forall result, retrieve (polls w + n) run_id = Ok result ->
          (status (run result) = "completed" ->
             poll_task now retrieve repr_run fuel run_id timeout w
             = (Some (Ok result), w'))
          /\ (status (run result) = "failed" ->
                poll_task now retrieve repr_run fuel run_id timeout w
                = (Some (Raise (Exception
                                  ("Task failed: " ++ repr_run (run result)))),
                   w'))
          /\ (terminal (status (run result)) = false ->
                poll_task now retrieve repr_run fuel run_id timeout w
                = poll_loop now retrieve repr_run (fuel - S n) run_id timeout
                            start (advance run_id (S n) (tick w)))).
Proof.
  intros now retrieve repr_run run_id timeout w n fuel start t w_n w' Hfuel Hpend.
  assert (Hsplit : poll_task now retrieve repr_run fuel run_id timeout w
                   = poll_loop now retrieve repr_run (S (fuel - S n)) run_id
                               timeout start w_n).
  { unfold poll_task. fold start.
    replace fuel with (n + S (fuel - S n)) at 1 by lia.
    now rewrite poll_loop_pending. }
  assert (Ht : now (reads w_n) = t).
  { unfold w_n, t. simpl. f_equal. lia. }
  assert (Hp : polls w_n = polls w + n) by reflexivity.
  rewrite Hsplit. split.
  - intros Hout.
    change ("Task " ++ run_id ++ " did not complete within "
                    ++ str_int timeout ++ "s")
      with (timeout_message run_id timeout).
    apply poll_loop_timeout. now rewrite Ht.
  - intros Hin result Hr.
    rewrite poll_loop_retrieve by now rewrite Ht.
    rewrite Hp, Hr. cbv zeta. fold w'. repeat split.
    + intros ->. reflexivity.
    + intros ->. reflexivity.
    + intros Hs. unfold terminal in Hs. apply orb_false_iff in Hs.
      destruct Hs as [-> ->]. f_equal. apply advance_succ.
Qed.

Lemma poll_task_outcomes_witness :
  poll_task Sample.now Sample.retrieve Sample.repr_run 3 "trun_1" 300 Sample.w0
  = (Some (Sample.retrieve 2 "trun_1"),
     {| reads := 4; polls := 3;
        trace := [Retrieved "trun_1"; Slept 2; Retrieved "trun_1"; Slept 2;
                  Retrieved "trun_1"] |})
  /\ poll_task Sample.now Sample.stuck Sample.repr_run 3 "trun_1" 4 Sample.w0
     = (Some (Raise (TimeoutError "Task trun_1 did not complete within 4s")),
        {| reads := 3; polls := 1;
           trace := [Retrieved "trun_1"; Slept 2] |})
  /\ poll_task Sample.now Cases.failing Sample.repr_run 3 "trun_1" 300
               Sample.w0
     = (Some (Raise (Exception
                       "Task failed: Run(run_id='trun_1', status='failed')")),
        {| reads := 3; polls := 2;
           trace := [Retrieved "trun_1"; Slept 2; Retrieved "trun_1"] |}).
Proof.
  repeat apply conj.
  - destruct (poll_task_outcomes Sample.now Sample.retrieve Sample.repr_run
                "trun_1" 300 Sample.w0 2 3) as [_ H].
    + lia.
    + intros i Hi. split.
      * destruct i as [|[|i]]; [reflexivity|reflexivity|lia].
      * destruct i as [|[|i]]; [| |lia]; eexists; split; reflexivity.
    + destruct (H ltac:(reflexivity) _ eq_refl) as (Hdone & _).
      exact (Hdone eq_refl).
  - destruct (poll_task_outcomes Sample.now Sample.stuck Sample.repr_run
                "trun_1" 4 Sample.w0 1 3) as [H _].
    + lia.
    + intros i Hi. split.
      * destruct i as [|i]; [reflexivity|lia].
      * eexists; split; reflexivity.
    + apply H. vm_compute. discriminate.
  - destruct (poll_task_outcomes Sample.now Cases.failing Sample.repr_run
                "trun_1" 300 Sample.w0 1 3) as [_ H].
    + lia.
    + intros i Hi. split.
      * destruct i as [|i]; [reflexivity|lia].
      * destruct i as [|i]; [|lia]. eexists; split; reflexivity.
    + destruct (H ltac:(reflexivity) _ eq_refl) as (_ & Hfailed & _).
      exact (Hfailed eq_refl).
Defined.

(** C10, as the code has it: with a timeout of zero or less, and a wall
    clock that has not been set back between the reading at the entry of the
    poll and the first reading of the loop, the poll raises the timeout
    error at once: nothing is retrieved and nothing is slept. *)
Theorem poll_task_without_budget :
  forall (now : nat -> Q) (retrieve : nat -> string -> res Result)
         (repr_run : Run -> string)
         (fuel : nat) (run_id : string) (timeout : Z) (w : world),
    (timeout <= 0)%Z ->
    (now (reads w) <= now (S (reads w)))%Q ->
    poll_task now retrieve repr_run (S fuel) run_id timeout w
    = (Some (Raise (TimeoutError (timeout_message run_id timeout))),
       {| reads := reads w + 2; polls := polls w; trace := trace w |}).
Proof.
  intros now retrieve repr_run fuel run_id timeout w Hz Hclock.
  unfold poll_task. rewrite poll_loop_timeout.
  - f_equal. unfold tick. simpl. apply world_eq; [lia|reflexivity|reflexivity].
  - simpl. rewrite Zle_Qle in Hz. change (inject_Z 0) with 0%Q in Hz. lra.
Qed.

Lemma poll_task_without_budget_witness :
  poll_task Sample.now Sample.retrieve Sample.repr_run 1 "trun_1" 0 Sample.w0
  = (Some (Raise (TimeoutError "Task trun_1 did not complete within 0s")),
     {| reads := 2; polls := 0; trace := [] |})
  /\ poll_task Sample.now Sample.retrieve Sample.repr_run 1 "trun_1" (-5)
       Sample.w0
     = (Some (Raise (TimeoutError "Task trun_1 did not complete within -5s")),
        {| reads := 2; polls := 0; trace := [] |}).
Proof.
  split.
  - apply (poll_task_without_budget Sample.now Sample.retrieve Sample.repr_run
             0 "trun_1" 0 Sample.w0); [lia|vm_compute; discriminate].
  - apply (poll_task_without_budget Sample.now Sample.retrieve Sample.repr_run
             0 "trun_1" (-5) Sample.w0); [lia|vm_compute; discriminate].
Defined.

(** C10, as it is worded, fails: [time.time()] is the wall clock, and when
    it is set back after the first reading the elapsed time is negative, so
    that a timeout of zero lets the poll retrieve. *)
Lemma stepped_back_clock_lets_poll_retrieve :
  poll_task Cases.stepped_back Sample.retrieve Sample.repr_run 5 "trun_1" 0
            Sample.w0
  = (Some (Sample.retrieve 2 "trun_1"),
     {| reads := 4; polls := 3;
        trace := [Retrieved "trun_1"; Slept 2; Retrieved "trun_1"; Slept 2;
                  Retrieved "trun_1"] |})
  /\ poll_task Cases.stepped_back Sample.retrieve Sample.repr_run 5 "trun_1" 0
               Sample.w0
     <> (Some (Raise (TimeoutError "Task trun_1 did not complete within 0s")),
         {| reads := 2; polls := 0; trace := [] |}).
Proof. split; [vm_compute; reflexivity|vm_compute; discriminate]. Qed.

(** ** Driver *)

Lemma requests_app (a b : list event) :
  requests (a ++ b) = (requests a ++ requests b)%list.
Proof.
  induction a as [|e a IH]; [reflexivity|].
  destruct e; simpl; now rewrite IH.
Qed.

Lemma get_request_fields (input_data : value) (processor : string)
    (task_spec : option dict) (include_domains exclude_domains : option (list string))
    (mcp : option (list value)) :
  let params :=
    create_task_params input_data processor task_spec
      include_domains exclude_domains mcp in
  get "input" params = Some input_data
  /\ get "processor" params = Some (VStr processor)
  /\ get "task_spec" params
     = match task_spec with
       | Some ((_ :: _) as ts) => Some (VDict ts)
       | _ => None
       end.
Proof.
  unfold create_task_params.
  destruct (truthy_list include_domains || truthy_list exclude_domains);
    destruct task_spec as [[|? ?]|]; destruct mcp as [[|? ?]|];
    repeat split; reflexivity.
Qed.

(** Requests of a trace that was extended by events. *)
Ltac requests_of_trace :=
  rewrite ?requests_app; simpl; rewrite ?requests_app; simpl;
  now rewrite ?app_nil_r.

Section DriverFacts.

Variable now : nat -> Q.
Variable retrieve : nat -> string -> res Result.
Variable create : dict -> res TaskRun.
Variable repr : value -> string.
Variable repr_run : Run -> string.
Variable json_dumps : dict -> string.
Variable builtin_text : string.

Lemma poll_loop_requests (fuel : nat) (run_id : string) (timeout : Z)
    (start : Q) (w : world) :
  requests (trace (snd (poll_loop now retrieve repr_run fuel run_id timeout
                                  start w)))
  = requests (trace w).
Proof.
  revert w. induction fuel as [|fuel IH]; intros w; [reflexivity|].
  simpl. destruct (Qltb (now (reads w) - start) (inject_Z timeout));
    [|reflexivity].
  destruct (retrieve (polls w) run_id) as [result|e]; simpl.
  - destruct (String.eqb (status (run result)) "completed"); simpl.
    + rewrite requests_app. simpl. apply app_nil_r.
    + destruct (String.eqb (status (run result)) "failed"); simpl.
      * rewrite requests_app. simpl. apply app_nil_r.
      * rewrite IH. simpl. rewrite !requests_app. simpl.
        now rewrite !app_nil_r.
  - rewrite requests_app. simpl. apply app_nil_r.
Qed.

Lemma print_result_requests (json : bool) (result : Result) (w : world) :
  requests (trace (snd (print_result repr json_dumps builtin_text json
                                     result w)))
  = requests (trace w).
Proof.
  unfold print_result, handler.
  destruct (render repr json_dumps json result); simpl;
    rewrite requests_app; simpl; apply app_nil_r.
Qed.

(** [main] submits the request of [request], once, or nothing. *)
Lemma main_requests (fuel : nat) (args : Args.t) (environ : option string)
    (w : world) :
  requests (trace (snd (main now retrieve create repr repr_run json_dumps
                             builtin_text fuel args environ w)))
  = (requests (trace w)
     ++ match request args environ with Some p => [p] | None => [] end)%list.
Proof.
  unfold main, request.
  destruct (select_mode args) as [msg| |input_data task_spec processor];
    simpl.
  - rewrite requests_app. reflexivity.
  - rewrite requests_app. reflexivity.
  - set (params := create_task_params _ _ _ _ _ _).
    destruct (create params) as [task_run|e]; simpl.
    + destruct (Args.no_wait args); simpl.
      * requests_of_trace.
      * unfold poll_task.
        match goal with
        | |- context [poll_loop ?x1 ?x2 ?x3 ?x4 ?x5 ?x6 ?x7 ?x8] =>
            pose proof (poll_loop_requests x4 x5 x6 x7 x8) as Hp;
            destruct (poll_loop x1 x2 x3 x4 x5 x6 x7 x8)
              as [[[result|e]|] w']
        end; simpl in *.
        -- rewrite print_result_requests, Hp.
           requests_of_trace.
        -- rewrite requests_app, Hp. simpl.
           requests_of_trace.
        -- rewrite Hp. requests_of_trace.
    + requests_of_trace.
Qed.

End DriverFacts.

(** A whole run of [--report -p base ...] against the sample service. *)
Example main_report_run :
  main Sample.now Sample.retrieve Sample.create Sample.repr Sample.repr_run
       Sample.json_dumps EmptyString 5 Sample.report_args None Sample.w0
  = (Some 0%Z,
     {| reads := 4; polls := 3;
        trace :=
          [Created [("input", VStr "Market analysis of HVAC industry");
                    ("processor", VStr "ultra");
                    ("task_spec",
                     VDict [("output_schema", VDict [("type", VStr "text")])])];
           Stderr "‚è≥ Running task trun_1...";
           Retrieved "trun_1"; Slept 2; Retrieved "trun_1"; Slept 2;
           Retrieved "trun_1";
           Stdout (join newline
                     ["üî¨ Task: trun_1";
                      "   Status: completed | Processor: core";
                      EmptyString; "**Report:**"; "ok"])] |}).
Proof. vm_compute. reflexivity. Qed.



(** C9: what a renderer prints for a result, and the exit status that goes
    with it, are settled by the result and the choice of renderer: they are
    the same in every world, so rendering the result a second time prints
    the same text again; no clock is read and the service is not called. *)
Theorem rendering_is_repeatable :
  forall (repr : value -> string) (json_dumps : dict -> string)
         (builtin_text : string) (json : bool) (result : Result),
    exists (code : Z) (out : event),
      (forall w,
         print_result repr json_dumps builtin_text json result w
         = (code, emit out w))
      /\ (forall w,
            let once := print_result repr json_dumps builtin_text json result w in
            let twice := print_result repr json_dumps builtin_text json result
                                      (snd once) in
            fst twice = fst once
            /\ trace (snd twice) = (trace w ++ [out; out])%list
            /\ reads (snd twice) = reads w
            /\ polls (snd twice) = polls w)
      /\ out = match render repr json_dumps json result with
               | Ok text => Stdout text
               | Raise e => Stderr ("‚ùå Error: " ++ str_exn builtin_text e)
               end.
Proof.
  intros repr json_dumps builtin_text json result.
  unfold print_result, handler.
  destruct (render repr json_dumps json result) as [text|e].
  - exists 0%Z, (Stdout text). repeat split; simpl.
    now rewrite <- app_assoc.
  - eexists 1%Z, _. repeat split; simpl.
    now rewrite <- app_assoc.
Qed.

(** * Further properties *)

(** ** Dictionaries, continued *)

Lemma in_keys_set {A} (k k' : string) (v : A) (d : list (string * A)) :
  In k' (keys (set k v d)) <-> k' = k \/ In k' (keys d).
Proof.
  unfold keys. induction d as [|[k0 v0] d IH]; simpl.
  - intuition.
  - destruct (String.eqb k k0) eqn:E; simpl.
    + apply String.eqb_eq in E. subst k0. intuition.
    + rewrite IH. intuition.
Qed.

Lemma nodup_keys_set {A} (k : string) (v : A) (d : list (string * A)) :
  NoDup (keys d) -> NoDup (keys (set k v d)).
Proof.
  unfold keys. induction d as [|[k0 v0] d IH]; simpl; intros H.
  - constructor; [intros []|constructor].
  - inversion H as [|? ? Hnin Hnd]; subst.
    destruct (String.eqb k k0) eqn:E; simpl.
    + apply String.eqb_eq in E. subst k0. now constructor.
    + constructor; [|now apply IH].
      intros Hin. apply (in_keys_set k k0 v d) in Hin.
      destruct Hin as [->|Hin]; [|contradiction].
      now rewrite String.eqb_refl in E.
Qed.

Lemma keys_set_same {A B} (k : string) (v : A) (v' : B)
    (d : list (string * A)) (d' : list (string * B)) :
  keys d = keys d' -> keys (set k v d) = keys (set k v' d').
Proof.
  unfold keys. revert d'. induction d as [|[k0 v0] d IH]; intros [|[k1 v1] d'];
    simpl; try discriminate; [reflexivity|].
  intros H. inversion H; subst.
  destruct (String.eqb k k1); simpl; [congruence|].
  f_equal. now apply IH.
Qed.

Lemma get_in_keys {A} (k : string) (d : list (string * A)) :
  get k d <> None <-> In k (keys d).
Proof.
  unfold keys. induction d as [|[k0 v0] d IH]; simpl.
  - intuition.
  - destruct (String.eqb k k0) eqn:E.
    + apply String.eqb_eq in E. subst. intuition discriminate.
    + rewrite IH. split; [auto|]. intros [->|H]; [|exact H].
      now rewrite String.eqb_refl in E.
Qed.

Lemma forall_values_set {A} (P : string -> A -> Prop) (k : string) (v : A)
    (d : list (string * A)) :
  P k v -> Forall (fun kv => P (fst kv) (snd kv)) d ->
  Forall (fun kv => P (fst kv) (snd kv)) (set k v d).
Proof.
  intros Hk. induction d as [|[k0 v0] d IH]; simpl; intros H.
  - constructor; [exact Hk|constructor].
  - inversion H; subst. destruct (String.eqb k k0); constructor; auto.
Qed.

(** ** Schema builder, continued *)

Lemma fold_input_step_keys (toks : list string)
    (acc : list (string * string) * dict) :
  keys (fst acc) = keys (snd acc) ->
  keys (fst (fold_left input_step toks acc))
  = keys (snd (fold_left input_step toks acc)).
Proof.
  revert acc. induction toks as [|tok toks IH]; intros acc H; [exact H|].
  simpl. apply IH. unfold input_step.
  destruct (contains equals tok); [|exact H].
  destruct (split1 equals tok) as [[key val]|]; [|exact H].
  simpl. now apply keys_set_same.
Qed.

Lemma fold_input_step_props (toks : list string)
    (acc : list (string * string) * dict) :
  Forall (fun kv => snd kv = string_prop) (snd acc) ->
  Forall (fun kv => snd kv = string_prop)
         (snd (fold_left input_step toks acc)).
Proof.
  revert acc. induction toks as [|tok toks IH]; intros acc H; [exact H|].
  simpl. apply IH. unfold input_step.
  destruct (contains equals tok); [|exact H].
  destruct (split1 equals tok) as [[key val]|]; [|exact H].
  simpl. now apply (forall_values_set (fun _ v => v = string_prop)).
Qed.

Lemma typed_string_forall (props : dict) :
  Forall (fun kv => lookup ["type"] (snd kv) = Some (VStr "string")) props ->
  typed_string props = true.
Proof.
  intros H. unfold typed_string. apply forallb_forall. intros kv Hin.
  rewrite Forall_forall in H. now rewrite (H kv Hin).
Qed.

Lemma build_enrichment_spec_parts (input_fields output_fields : string) :
  build_enrichment_spec input_fields output_fields
  = (fst (parse_inputs input_fields),
     [("input_schema", json_schema (snd (parse_inputs input_fields)));
      ("output_schema", json_schema (parse_outputs output_fields))]).
Proof.
  unfold build_enrichment_spec. now destruct (parse_inputs input_fields).
Qed.

(** X1: whatever the two strings are, the input schema mirrors the input
    data: its properties have the keys of [input_data] in the same order,
    each typed string, its [required] list is those keys, and
    [additionalProperties] is false. *)
Theorem input_schema_mirrors_input_data :
  forall input_fields output_fields : string,
    let input_data := fst (build_enrichment_spec input_fields output_fields) in
    let task_spec := snd (build_enrichment_spec input_fields output_fields) in
    exists props,
      lookup ["input_schema"; "json_schema"] (VDict task_spec)
      = Some (VDict [("type", VStr "object");
                     ("properties", VDict props);
                     ("required", VList (map VStr (keys input_data)));
                     ("additionalProperties", VBool false)])
      /\ keys props = keys input_data
      /\ typed_string props = true.
Proof.
  intros input_fields output_fields. rewrite build_enrichment_spec_parts.
  cbn [fst snd]. exists (snd (parse_inputs input_fields)).
  assert (Hk : keys (fst (parse_inputs input_fields))
               = keys (snd (parse_inputs input_fields))).
  { unfold parse_inputs. now apply fold_input_step_keys. }
  repeat split.
  - cbn. now rewrite Hk.
  - now rewrite Hk.
  - apply typed_string_forall. unfold parse_inputs.
    pose proof (fold_input_step_props (split comma input_fields) ([], [])
                  (Forall_nil _)) as H.
    eapply Forall_impl; [|exact H]. intros kv ->. reflexivity.
Qed.

Lemma output_step_keys (acc : dict) (tok f : string) :
  In f (keys (output_step acc tok))
  <-> In f (keys acc) \/ (strip tok = f /\ f <> EmptyString).
Proof.
  unfold output_step. destruct (strip tok) as [|a s] eqn:E; simpl.
  - split; [auto|]. intros [H|[<- H]]; [exact H|congruence].
  - rewrite in_keys_set. split.
    + intros [->|H]; [right; split; [reflexivity|discriminate]|auto].
    + intros [H|[H _]]; auto.
Qed.

Lemma fold_output_step_keys (toks : list string) (acc : dict) (f : string) :
  In f (keys (fold_left output_step toks acc))
  <-> In f (keys acc)
      \/ exists tok, In tok toks /\ strip tok = f /\ f <> EmptyString.
Proof.
  revert acc. induction toks as [|tok toks IH]; intros acc; simpl.
  - split; [auto|]. intros [H|(tok & [] & _)]. exact H.
  - rewrite IH, output_step_keys. split.
    + intros [[H|H]|(tok' & Hin & H)].
      * auto.
      * right. exists tok. auto.
      * right. exists tok'. auto.
    + intros [H|(tok' & [->|Hin] & H)].
      * auto.
      * auto.
      * right. exists tok'. auto.
Qed.

Lemma fold_output_step_values (toks : list string) (acc : dict) :
  Forall (fun kv => snd kv = output_prop (fst kv)) acc ->
  Forall (fun kv => snd kv = output_prop (fst kv))
         (fold_left output_step toks acc).
Proof.
  revert acc. induction toks as [|tok toks IH]; intros acc H; [exact H|].
  simpl. apply IH. unfold output_step.
  destruct (truthy_str (strip tok)); [|exact H].
  now apply (forall_values_set (fun k v => v = output_prop k)).
Qed.

Lemma fold_output_step_nodup (toks : list string) (acc : dict) :
  NoDup (keys acc) -> NoDup (keys (fold_left output_step toks acc)).
Proof.
  revert acc. induction toks as [|tok toks IH]; intros acc H; [exact H|].
  simpl. apply IH. unfold output_step.
  destruct (truthy_str (strip tok)); [|exact H].
  now apply nodup_keys_set.
Qed.

Lemma fold_input_step_nodup (toks : list string)
    (acc : list (string * string) * dict) :
  NoDup (keys (fst acc)) ->
  NoDup (keys (fst (fold_left input_step toks acc))).
Proof.
  revert acc. induction toks as [|tok toks IH]; intros acc H; [exact H|].
  simpl. apply IH. unfold input_step.
  destruct (contains equals tok); [|exact H].
  destruct (split1 equals tok) as [[key val]|]; [|exact H].
  simpl. now apply nodup_keys_set.
Qed.

(** X2: the output schema requires exactly the declared names: a name is a
    property if and only if it is the stripped form of a comma-separated
    token and is not empty; every property is the string-typed one with the
    description of its own name; [required] lists the property keys and
    [additionalProperties] is false. *)
Theorem output_schema_holds_declared_fields :
  forall input_fields output_fields : string,
    let task_spec := snd (build_enrichment_spec input_fields output_fields) in
    exists props,
      lookup ["output_schema"; "json_schema"] (VDict task_spec)
      = Some (VDict [("type", VStr "object");
                     ("properties", VDict props);
                     ("required", VList (map VStr (keys props)));
                     ("additionalProperties", VBool false)])
      /\ (forall f, In f (keys props)
            <-> exists tok, In tok (split comma output_fields)
                            /\ strip tok = f /\ f <> EmptyString)
      /\ Forall (fun kv => snd kv = output_prop (fst kv)) props
      /\ typed_string props = true.
Proof.
  intros input_fields output_fields. rewrite build_enrichment_spec_parts.
  cbn [snd]. exists (parse_outputs output_fields).
  assert (Hv : Forall (fun kv => snd kv = output_prop (fst kv))
                      (parse_outputs output_fields)).
  { apply fold_output_step_values. constructor. }
  repeat apply conj.
  - reflexivity.
  - intros f. unfold parse_outputs. rewrite fold_output_step_keys.
    simpl. intuition.
  - exact Hv.
  - apply typed_string_forall. eapply Forall_impl; [|exact Hv].
    intros kv ->. reflexivity.
Qed.

(** X3: no name is required twice: the keys of the input data and the
    [required] lists of both schemas are free of duplicates, also when a
    key or a field is given several times. *)
Theorem required_lists_have_no_duplicates :
  forall input_fields output_fields : string,
    let input_data := fst (build_enrichment_spec input_fields output_fields) in
    let task_spec := snd (build_enrichment_spec input_fields output_fields) in
    NoDup (keys input_data)
    /\ (exists required,
          lookup ["input_schema"; "json_schema"; "required"] (VDict task_spec)
          = Some (VList (map VStr required)) /\ NoDup required)
    /\ (exists required,
          lookup ["output_schema"; "json_schema"; "required"] (VDict task_spec)
          = Some (VList (map VStr required)) /\ NoDup required).
Proof.
  intros input_fields output_fields. rewrite build_enrichment_spec_parts.
  cbn [fst snd].
  assert (Hi : NoDup (keys (fst (parse_inputs input_fields)))).
  { unfold parse_inputs. apply fold_input_step_nodup. constructor. }
  repeat apply conj.
  - exact Hi.
  - exists (keys (snd (parse_inputs input_fields))). split; [reflexivity|].
    unfold parse_inputs. rewrite <- fold_input_step_keys by reflexivity.
    exact Hi.
  - exists (keys (parse_outputs output_fields)). split; [reflexivity|].
    unfold parse_outputs. apply fold_output_step_nodup. constructor.
Qed.

Lemma split1_none (c : ascii) (s : string) :
  split1 c s = None <-> contains c s = false.
Proof.
  induction s as [|a s IH]; simpl; [intuition|].
  destruct (Ascii.eqb a c); [intuition discriminate|].
  destruct (split1 c s) as [[k v]|]; [|intuition].
  split; [discriminate|]. intros H. apply IH in H. discriminate.
Qed.

Lemma input_step_split1 (acc : list (string * string) * dict) (pair : string) :
  input_step acc pair
  = match split1 equals pair with
    | Some (key, val) =>
        (set (strip key) (strip val) (fst acc),
         set (strip key) string_prop (snd acc))
    | None => acc
    end.
Proof.
  unfold input_step. destruct (contains equals pair) eqn:E; [reflexivity|].
  apply split1_none in E. now rewrite E.
Qed.

Lemma fold_input_step_keeps (toks : list string)
    (acc : list (string * string) * dict) (k v : string) :
  get k (fst acc) = Some v ->
  (forall tok key val, In tok toks -> split1 equals tok = Some (key, val) ->
                       strip key <> k) ->
  get k (fst (fold_left input_step toks acc)) = Some v.
Proof.
  revert acc. induction toks as [|tok toks IH]; intros acc Hg Hother;
    [exact Hg|].
  simpl. apply IH.
  - rewrite input_step_split1.
    destruct (split1 equals tok) as [[key val]|] eqn:E; [|exact Hg].
    simpl. rewrite get_set_neq; [exact Hg|].
    apply (Hother tok key val); [now left|exact E].
  - intros tok' key val Hin. apply Hother. now right.
Qed.

(** X4: when a key is given several times the last pair decides its value:
    the value of a key is the stripped value of the last token that names
    it. *)
Theorem last_pair_decides_the_value :
  forall (input_fields output_fields : string)
         (before after : list string) (tok key val : string),
    split comma input_fields = (before ++ tok :: after)%list ->
    split1 equals tok = Some (key, val) ->
    (forall tok' key' val',
       In tok' after -> split1 equals tok' = Some (key', val') ->
       strip key' <> strip key) ->
    get (strip key) (fst (build_enrichment_spec input_fields output_fields))
    = Some (strip val).
Proof.
  intros input_fields output_fields before after tok key val Hs Htok Hafter.
  rewrite fst_build_enrichment_spec. unfold parse_inputs.
  rewrite Hs, fold_left_app. simpl.
  apply fold_input_step_keeps; [|exact Hafter].
  rewrite input_step_split1, Htok. simpl. apply get_set_eq.
Qed.

Lemma last_pair_decides_the_value_witness :
  get "name" (fst (build_enrichment_spec "name=Stripe,site=stripe.com, name = Adyen "
                                         "funding"))
  = Some "Adyen".
Proof.
  apply (last_pair_decides_the_value
           "name=Stripe,site=stripe.com, name = Adyen " "funding"
           ["name=Stripe"; "site=stripe.com"] [] " name = Adyen "
           " name " " Adyen ").
  - reflexivity.
  - reflexivity.
  - intros tok' key' val' [].
Defined.

Lemma contains_cons_false (c a : ascii) (s : string) :
  contains c (String a s) = false <-> Ascii.eqb a c = false /\ contains c s = false.
Proof.
  simpl. destruct (Ascii.eqb a c); intuition discriminate.
Qed.

Lemma split_without (c sep : ascii) (s : string) :
  contains c s = false ->
  Forall (fun tok => contains c tok = false) (split sep s).
Proof.
  induction s as [|a s IH]; intros H.
  - repeat constructor.
  - apply contains_cons_false in H. destruct H as [Ha Hs].
    specialize (IH Hs). simpl.
    destruct (Ascii.eqb a sep).
    + constructor; [reflexivity|exact IH].
    + destruct (split sep s) as [|w ws].
      * repeat constructor. simpl. now rewrite Ha.
      * inversion IH; subst. constructor; [|assumption].
        apply contains_cons_false. auto.
Qed.

Lemma fold_input_step_without_equals (toks : list string)
    (acc : list (string * string) * dict) :
  Forall (fun tok => contains equals tok = false) toks ->
  fold_left input_step toks acc = acc.
Proof.
  revert acc. induction toks as [|tok toks IH]; intros acc H; [reflexivity|].
  inversion H; subst. simpl.
  rewrite input_step_without_equals by assumption. now apply IH.
Qed.

(** X5: an input string that holds no ['='] gives no input data at all, and
    an input schema without properties that requires nothing. *)
Theorem no_equals_no_input_data :
  forall input_fields output_fields : string,
    contains equals input_fields = false ->
    fst (build_enrichment_spec input_fields output_fields) = []
    /\ lookup ["input_schema"; "json_schema"]
              (VDict (snd (build_enrichment_spec input_fields output_fields)))
       = Some (VDict [("type", VStr "object");
                      ("properties", VDict []);
                      ("required", VList []);
                      ("additionalProperties", VBool false)]).
Proof.
  intros input_fields output_fields H.
  rewrite build_enrichment_spec_parts. unfold parse_inputs.
  rewrite fold_input_step_without_equals by now apply split_without.
  split; reflexivity.
Qed.

Lemma no_equals_no_input_data_witness :
  fst (build_enrichment_spec "Stripe, stripe.com" "funding") = []
  /\ lookup ["input_schema"; "json_schema"; "required"]
            (VDict (snd (build_enrichment_spec "Stripe, stripe.com" "funding")))
     = Some (VList []).
Proof.
  destruct (no_equals_no_input_data "Stripe, stripe.com" "funding" eq_refl)
    as [Hd Hs].
  split; [exact Hd|].
  change (lookup ["input_schema"; "json_schema"; "required"]
                 (VDict (snd (build_enrichment_spec "Stripe, stripe.com"
                                                    "funding"))))
    with (match lookup ["input_schema"; "json_schema"]
                       (VDict (snd (build_enrichment_spec "Stripe, stripe.com"
                                                          "funding")))
          with
          | Some v => lookup ["required"] v
          | None => None
          end).
  rewrite Hs. reflexivity.
Defined.

Lemma split_single (sep : ascii) (s : string) :
  contains sep s = false -> split sep s = [s].
Proof.
  induction s as [|a s IH]; intros H; [reflexivity|].
  apply contains_cons_false in H. destruct H as [Ha Hs].
  simpl. rewrite Ha, (IH Hs). reflexivity.
Qed.

Lemma contains_append (c : ascii) (s t : string) :
  contains c (s ++ t) = contains c s || contains c t.
Proof.
  induction s as [|a s IH]; simpl; [reflexivity|].
  destruct (Ascii.eqb a c); [reflexivity|exact IH].
Qed.

Lemma split1_first (c : ascii) (k v : string) :
  contains c k = false -> split1 c (k ++ String c v) = Some (k, v).
Proof.
  induction k as [|a k IH]; intros H; simpl.
  - now rewrite Ascii.eqb_refl.
  - apply contains_cons_false in H. destruct H as [Ha Hk].
    now rewrite Ha, (IH Hk).
Qed.

(** X6: a pair is cut at its first ['='] only: the value keeps every later
    ['=']. *)
Theorem pair_is_cut_at_first_equals :
  forall key val output_fields : string,
    contains equals key = false ->
    contains comma key = false ->
    contains comma val = false ->
    fst (build_enrichment_spec (key ++ "=" ++ val) output_fields)
    = [(strip key, strip val)].
Proof.
  intros key val output_fields Hk Hck Hcv.
  rewrite fst_build_enrichment_spec. unfold parse_inputs.
  rewrite split_single.
  - simpl. rewrite input_step_split1.
    change ("=" ++ val) with (String equals val).
    now rewrite split1_first.
  - rewrite contains_append, Hck. simpl. exact Hcv.
Qed.

Lemma pair_is_cut_at_first_equals_witness :
  fst (build_enrichment_spec "url=https://stripe.com/?ref=a&utm=b" "funding")
  = [("url", "https://stripe.com/?ref=a&utm=b")].
Proof.
  exact (pair_is_cut_at_first_equals "url" "https://stripe.com/?ref=a&utm=b"
           "funding" eq_refl eq_refl eq_refl).
Defined.

(** ** Task submitter, continued *)

(** X7: the request always opens with [input] and [processor]; after them
    come [task_spec], [source_policy], and [mcp_servers] with [betas], each
    exactly when its argument is non-empty, so that [betas] is sent if and
    only if [mcp_servers] is. *)
Theorem request_keys :
  forall (input_data : value) (processor : string) (task_spec : option dict)
         (include_domains exclude_domains : option (list string))
         (mcp : option (list value)),
    keys (create_task_params input_data processor task_spec
            include_domains exclude_domains mcp)
    = (["input"; "processor"]
       ++ (if truthy_dict task_spec then ["task_spec"] else [])
       ++ (if truthy_list include_domains || truthy_list exclude_domains
           then ["source_policy"] else [])
       ++ (if truthy_list mcp then ["mcp_servers"; "betas"] else []))%list.
Proof.
  intros input_data processor task_spec inc exc mcp.
  unfold create_task_params.
  destruct (truthy_list inc || truthy_list exc);
    destruct task_spec as [[|? ?]|]; destruct mcp as [[|? ?]|]; reflexivity.
Qed.

Lemma get_mcp_servers (input_data : value) (processor : string)
    (task_spec : option dict) (include_domains exclude_domains : option (list string))
    (mcp : option (list value)) :
  let params :=
    create_task_params input_data processor task_spec
      include_domains exclude_domains mcp in
  get "mcp_servers" params
  = (if truthy_list mcp
     then match mcp with Some l => Some (VList l) | None => None end
     else None)
  /\ get "betas" params
     = (if truthy_list mcp
        then Some (VList [VStr "mcp-server-2025-07-17"]) else None).
Proof.
  unfold create_task_params.
  destruct (truthy_list include_domains || truthy_list exclude_domains);
    destruct task_spec as [[|? ?]|]; destruct mcp as [[|? ?]|];
    split; reflexivity.
Qed.

(** ** Driver, continued *)

Lemma split_not_nil (sep : ascii) (s : string) : split sep s <> [].
Proof.
  destruct s as [|a s]; simpl; [discriminate|].
  destruct (Ascii.eqb a sep); [discriminate|].
  destruct (split sep s); discriminate.
Qed.

Lemma domain_filter_truthy (flag : option string) :
  truthy_list (domain_filter flag) = truthy_opt flag.
Proof.
  destruct flag as [[|a s]|]; try reflexivity.
  unfold domain_filter. simpl truthy_opt.
  destruct (split comma (String a s)) eqn:E; [|reflexivity].
  now apply split_not_nil in E.
Qed.

Lemma get_policy_lists (include_domains exclude_domains : option (list string)) :
  (truthy_list include_domains = true ->
   get "include_domains" (source_policy include_domains exclude_domains)
   = Some (domains include_domains))
  /\ (truthy_list exclude_domains = true ->
      get "exclude_domains" (source_policy include_domains exclude_domains)
      = Some (domains exclude_domains)).
Proof.
  unfold source_policy.
  destruct (truthy_list include_domains), (truthy_list exclude_domains);
    split; intros H; (reflexivity || discriminate).
Qed.

(** X8: a domain flag that is given always reaches the request: the
    request that [main] builds then holds a source policy whose list is the
    flag cut at its commas, each piece stripped, empty pieces included. *)
Theorem domain_flags_reach_the_request :
  forall (args : Args.t) (environ : option string) (params : dict),
    request args environ = Some params ->
    (forall flag, Args.include_domains args = Some flag ->
                  flag <> EmptyString ->
       lookup ["source_policy"; "include_domains"] (VDict params)
       = Some (VList (map VStr (map strip (split comma flag)))))
    /\ (forall flag, Args.exclude_domains args = Some flag ->
                     flag <> EmptyString ->
          lookup ["source_policy"; "exclude_domains"] (VDict params)
          = Some (VList (map VStr (map strip (split comma flag)))))
    /\ (truthy_opt (Args.include_domains args) = false ->
        truthy_opt (Args.exclude_domains args) = false ->
        get "source_policy" params = None).
Proof.
  intros args environ params Hreq. unfold request in Hreq.
  destruct (select_mode args) as [| |input_data task_spec processor];
    try discriminate.
  inversion Hreq as [Hp]. clear Hreq Hp.
  unfold lookup. rewrite get_source_policy.
  destruct (get_policy_lists (domain_filter (Args.include_domains args))
                             (domain_filter (Args.exclude_domains args)))
    as [Hinc Hexc].
  rewrite !domain_filter_truthy in *.
  repeat apply conj.
  - intros flag Hf Hne.
    assert (Ht : truthy_opt (Args.include_domains args) = true).
    { rewrite Hf. destruct flag; [congruence|reflexivity]. }
    rewrite Ht. cbn [orb]. rewrite (Hinc Ht), Hf.
    destruct flag; [congruence|reflexivity].
  - intros flag Hf Hne.
    assert (Ht : truthy_opt (Args.exclude_domains args) = true).
    { rewrite Hf. destruct flag; [congruence|reflexivity]. }
    rewrite Ht, orb_true_r. rewrite (Hexc Ht), Hf.
    destruct flag; [congruence|reflexivity].
  - intros -> ->. reflexivity.
Qed.

Lemma domain_flags_reach_the_request_witness :
  lookup ["source_policy"; "include_domains"]
         (VDict (create_task_params (VStr "What is X") "core" None
                   (Some ["nxp.com"; "docs.nxp.com"]) None
                   (Some [browseruse_server "bu_1"])))
  = Some (VList [VStr "nxp.com"; VStr "docs.nxp.com"]).
Proof.
  destruct (domain_flags_reach_the_request Cases.plain_args None _ eq_refl)
    as [H _].
  exact (H " nxp.com ,docs.nxp.com" eq_refl ltac:(discriminate)).
Defined.

Lemma select_mode_enrich (args : Args.t) (fields outs : string) :
  Args.enrich args = Some fields -> fields <> EmptyString ->
  Args.output args = Some outs -> outs <> EmptyString ->
  select_mode args
  = Submit (VDict (map (fun kv => (fst kv, VStr (snd kv)))
                       (fst (build_enrichment_spec fields outs))))
           (Some (snd (build_enrichment_spec fields outs)))
           (Args.processor args).
Proof.
  intros He Hf Ho Hn. unfold select_mode. rewrite He, Ho.
  destruct fields as [|a fields]; [congruence|].
  destruct outs as [|b outs]; [congruence|].
  now destruct (build_enrichment_spec (String a fields) (String b outs)).
Qed.

Lemma select_mode_plain (args : Args.t) :
  truthy_opt (Args.enrich args) = false -> Args.report args = false ->
  select_mode args
  = match joined_query args with
    | Some (String a q) => Submit (VStr (String a q)) None (Args.processor args)
    | _ => PrintHelp
    end.
Proof.
  intros He Hr. unfold select_mode. rewrite Hr.
  destruct (Args.enrich args) as [[|? ?]|]; try discriminate;
    destruct (joined_query args) as [[|? ?]|]; reflexivity.
Qed.

Lemma stdout_of_app (a b : list event) :
  stdout_of (a ++ b) = (stdout_of a ++ stdout_of b)%list.
Proof.
  induction a as [|e a IH]; [reflexivity|].
  destruct e; simpl; now rewrite IH.
Qed.

Ltac stdout_of_trace :=
  rewrite ?stdout_of_app; simpl; rewrite ?stdout_of_app; simpl;
  rewrite ?app_nil_r; try reflexivity.

Section DriverFacts2.

Variable now : nat -> Q.
Variable retrieve : nat -> string -> res Result.
Variable create : dict -> res TaskRun.
Variable repr : value -> string.
Variable repr_run : Run -> string.
Variable json_dumps : dict -> string.
Variable builtin_text : string.

Local Abbreviation run_main :=
  (main now retrieve create repr repr_run json_dumps builtin_text).

Lemma poll_loop_stdout (fuel : nat) (run_id : string) (timeout : Z)
    (start : Q) (w : world) :
  stdout_of (trace (snd (poll_loop now retrieve repr_run fuel run_id timeout
                                   start w)))
  = stdout_of (trace w).
Proof.
  revert w. induction fuel as [|fuel IH]; intros w; [reflexivity|].
  simpl. destruct (Qltb (now (reads w) - start) (inject_Z timeout));
    [|reflexivity].
  destruct (retrieve (polls w) run_id) as [result|e]; simpl.
  - destruct (String.eqb (status (run result)) "completed"); simpl.
    + stdout_of_trace.
    + destruct (String.eqb (status (run result)) "failed"); simpl.
      * stdout_of_trace.
      * rewrite IH. stdout_of_trace.
  - stdout_of_trace.
Qed.

(** X9: enrichment mode wins over report mode: with [--enrich] and
    [--output] both given, [main] submits one request that carries the input
    data as a dictionary, the enrichment task spec and the processor of the
    [--processor] flag, whether or not [--report] or a query is there. *)
Theorem enrichment_takes_precedence :
  forall (fuel : nat) (args : Args.t) (environ : option string) (w : world)
         (fields outs : string),
    Args.enrich args = Some fields -> fields <> EmptyString ->
    Args.output args = Some outs -> outs <> EmptyString ->
    exists params,
      requests (trace (snd (run_main fuel args environ w)))
      = (requests (trace w) ++ [params])%list
      /\ get "input" params
         = Some (VDict (map (fun kv => (fst kv, VStr (snd kv)))
                            (fst (build_enrichment_spec fields outs))))
      /\ get "processor" params = Some (VStr (Args.processor args))
      /\ get "task_spec" params
         = Some (VDict (snd (build_enrichment_spec fields outs))).
Proof.
  intros fuel args environ w fields outs He Hf Ho Hn.
  pose proof (select_mode_enrich args fields outs He Hf Ho Hn) as Hmode.
  eexists. split.
  - rewrite main_requests. unfold request. rewrite Hmode. reflexivity.
  - destruct (snd (build_enrichment_spec fields outs)) as [|entry spec] eqn:E.
    { rewrite build_enrichment_spec_parts in E. discriminate. }
    exact (get_request_fields _ (Args.processor args) (Some (entry :: spec))
             _ _ _).
Qed.

(** X10: a command line that names no work submits nothing: [--enrich]
    without [--output] ends with status 1 and the usage message on the error
    stream, and no mode with no query ends with status 1 after the help;
    neither creates a task, reads the clock or polls. *)
Theorem usage_errors_submit_nothing :
  forall (fuel : nat) (args : Args.t) (environ : option string) (w : world),
    (truthy_opt (Args.enrich args) = true ->
     truthy_opt (Args.output args) = false ->
     run_main fuel args environ w
     = (Some 1%Z, emit (Stderr "Error: --enrich requires --output fields") w))
    /\ (truthy_opt (Args.enrich args) = false ->
        Args.report args = false ->
        truthy_opt (joined_query args) = false ->
        run_main fuel args environ w = (Some 1%Z, emit Help w)).
Proof.
  intros fuel args environ w. split.
  - intros He Ho. unfold main, select_mode.
    destruct (Args.enrich args) as [[|? ?]|]; try discriminate.
    destruct (Args.output args) as [[|? ?]|]; try discriminate; reflexivity.
  - intros He Hr Hq. unfold main. rewrite select_mode_plain by assumption.
    destruct (joined_query args) as [[|? ?]|]; try discriminate; reflexivity.
Qed.

(** X11: a plain query is submitted as it is: the words joined by single
    spaces as input, the processor of the flag, and no task spec. *)
Theorem plain_query_request :
  forall (fuel : nat) (args : Args.t) (environ : option string) (w : world),
    truthy_opt (Args.enrich args) = false ->
    Args.report args = false ->
    truthy_opt (joined_query args) = true ->
    exists params,
      requests (trace (snd (run_main fuel args environ w)))
      = (requests (trace w) ++ [params])%list
      /\ get "input" params = Some (VStr (join " " (Args.query args)))
      /\ get "processor" params = Some (VStr (Args.processor args))
      /\ get "task_spec" params = None.
Proof.
  intros fuel args environ w He Hr Hq.
  pose proof (select_mode_plain args He Hr) as Hmode.
  assert (Hj : joined_query args = Some (join " " (Args.query args))).
  { unfold joined_query in *. destruct (Args.query args);
      [discriminate|reflexivity]. }
  rewrite Hj in Hmode, Hq.
  destruct (join " " (Args.query args)) as [|a q] eqn:Ej; [discriminate|].
  eexists. split.
  - rewrite main_requests. unfold request. rewrite Hmode. reflexivity.
  - exact (get_request_fields (VStr (String a q)) (Args.processor args) None
             _ _ _).
Qed.

(** X12: with [--no-wait] the script never polls: whatever the fuel, it
    stops right after the creation, having read no clock and retrieved
    nothing; it prints the run id and ends with status 0 when the creation
    succeeds, and ends with status 1 and the error on the error stream when
    it fails. *)
Theorem no_wait_never_polls :
  forall (fuel : nat) (args : Args.t) (environ : option string) (w : world)
         (params : dict),
    Args.no_wait args = true ->
    request args environ = Some params ->
    run_main fuel args environ w
    = match create params with
      | Ok task_run =>
          (Some 0%Z,
           emit (Stdout ("Task created: "
                           ++ match task_run with
                              | WithRun r => run_id r
                              | Bare id => id
                              end))
                (emit (Created params) w))
      | Raise e =>
          (Some 1%Z,
           emit (Stderr ("‚ùå Error: " ++ str_exn builtin_text e))
                (emit (Created params) w))
      end
    /\ reads (snd (run_main fuel args environ w)) = reads w
    /\ polls (snd (run_main fuel args environ w)) = polls w.
Proof.
  intros fuel args environ w params Hnw Hreq.
  unfold request in Hreq. unfold main.
  destruct (select_mode args) as [| |input_data task_spec processor];
    try discriminate.
  inversion Hreq as [Hp]. rewrite Hp.
  destruct (create params) as [task_run|e]; rewrite ?Hnw;
    repeat split; reflexivity.
Qed.

(** X13: once the command line is parsed, the exit status tells what
    reached standard output: with status 0 exactly one text was printed
    there; with status 1 nothing was, except that the help was written there
    when neither a mode nor a query was given; [main] ends with no other
    status, and with none only when the poll loop ran out of fuel. *)
Theorem exit_status_and_stdout :
  forall (fuel : nat) (args : Args.t) (environ : option string) (w : world),
    let out := run_main fuel args environ w in
    match fst out with
    | Some code =>
        (code = 0%Z
         /\ exists text,
              stdout_of (trace (snd out))
              = (stdout_of (trace w) ++ [Stdout text])%list)
        \/ (code = 1%Z
            /\ select_mode args <> PrintHelp
            /\ stdout_of (trace (snd out)) = stdout_of (trace w))
        \/ (code = 1%Z
            /\ select_mode args = PrintHelp
            /\ stdout_of (trace (snd out))
               = (stdout_of (trace w) ++ [Help])%list)
    | None => Args.no_wait args = false /\ request args environ <> None
    end.
Proof.
  intros fuel args environ w. unfold main, request.
  destruct (select_mode args) as [msg| |input_data task_spec processor];
    simpl.
  - right. left. split; [reflexivity|]. split; [discriminate|].
    stdout_of_trace.
  - right. right. split; [reflexivity|]. split; [reflexivity|].
    stdout_of_trace.
  - set (params := create_task_params _ _ _ _ _ _).
    destruct (create params) as [task_run|e]; simpl.
    + destruct (Args.no_wait args); simpl.
      * left. split; [reflexivity|]. eexists. stdout_of_trace.
      * unfold poll_task.
        match goal with
        | |- context [poll_loop ?x1 ?x2 ?x3 ?x4 ?x5 ?x6 ?x7 ?x8] =>
            pose proof (poll_loop_stdout x4 x5 x6 x7 x8) as Hp;
            destruct (poll_loop x1 x2 x3 x4 x5 x6 x7 x8)
              as [[[result|e]|] w']
        end; simpl in *.
        -- unfold print_result, handler.
           destruct (render repr json_dumps (Args.json args) result); simpl.
           ++ left. split; [reflexivity|]. eexists.
              rewrite stdout_of_app, Hp. stdout_of_trace.
           ++ right. left. split; [reflexivity|]. split; [discriminate|].
              rewrite stdout_of_app, Hp. stdout_of_trace.
        -- right. left. split; [reflexivity|]. split; [discriminate|].
           rewrite stdout_of_app, Hp. stdout_of_trace.
        -- split; [reflexivity|discriminate].
    + right. left. split; [reflexivity|]. split; [discriminate|].
      stdout_of_trace.
Qed.

End DriverFacts2.

Lemma enrichment_takes_precedence_witness :
  exists params,
    requests (trace (snd (main Sample.now Sample.retrieve Sample.create
                               Sample.repr Sample.repr_run Sample.json_dumps
                               EmptyString 5 Cases.enrich_args None
                               Sample.w0)))
    = [params]
    /\ get "input" params = Some (VDict [("company_name", VStr "Stripe")])
    /\ get "processor" params = Some (VStr "base")
    /\ get "task_spec" params
       = Some (VDict (snd (build_enrichment_spec "company_name=Stripe"
                                                 "founding_year,funding"))).
Proof.
  exact (enrichment_takes_precedence Sample.now Sample.retrieve Sample.create
           Sample.repr Sample.repr_run Sample.json_dumps EmptyString 5
           Cases.enrich_args None Sample.w0 "company_name=Stripe"
           "founding_year,funding" eq_refl ltac:(discriminate)
           eq_refl ltac:(discriminate)).
Defined.

Lemma usage_errors_submit_nothing_witness :
  main Sample.now Sample.retrieve Sample.create Sample.repr Sample.repr_run
       Sample.json_dumps EmptyString 5 Cases.bad_enrich_args None Sample.w0
  = (Some 1%Z,
     {| reads := 0; polls := 0;
        trace := [Stderr "Error: --enrich requires --output fields"] |})
  /\ main Sample.now Sample.retrieve Sample.create Sample.repr Sample.repr_run
          Sample.json_dumps EmptyString 5 Cases.no_args None Sample.w0
     = (Some 1%Z, {| reads := 0; polls := 0; trace := [Help] |}).
Proof.
  split.
  - exact (proj1 (usage_errors_submit_nothing Sample.now Sample.retrieve
                    Sample.create Sample.repr Sample.repr_run
                    Sample.json_dumps EmptyString 5 Cases.bad_enrich_args None
                    Sample.w0) eq_refl eq_refl).
  - exact (proj2 (usage_errors_submit_nothing Sample.now Sample.retrieve
                    Sample.create Sample.repr Sample.repr_run
                    Sample.json_dumps EmptyString 5 Cases.no_args None
                    Sample.w0) eq_refl eq_refl eq_refl).
Defined.

Lemma plain_query_request_witness :
  exists params,
    requests (trace (snd (main Sample.now Sample.retrieve Sample.create
                               Sample.repr Sample.repr_run Sample.json_dumps
                               EmptyString 5 Cases.plain_args None
                               Sample.w0)))
    = [params]
    /\ get "input" params = Some (VStr "What is X")
    /\ get "processor" params = Some (VStr "core")
    /\ get "task_spec" params = None.
Proof.
  exact (plain_query_request Sample.now Sample.retrieve Sample.create
           Sample.repr Sample.repr_run Sample.json_dumps EmptyString 5
           Cases.plain_args None Sample.w0 eq_refl eq_refl eq_refl).
Defined.

Lemma no_wait_never_polls_witness :
  exists params,
    request Cases.plain_args None = Some params
    /\ main Sample.now Sample.retrieve Sample.create Sample.repr
            Sample.repr_run Sample.json_dumps EmptyString 0 Cases.plain_args
            None Sample.w0
       = (Some 0%Z,
          {| reads := 0; polls := 0;
             trace := [Created params; Stdout "Task created: trun_1"] |})
    /\ main Sample.now Sample.retrieve Cases.refuse Sample.repr
            Sample.repr_run Sample.json_dumps EmptyString 0 Cases.plain_args
            None Sample.w0
       = (Some 1%Z,
          {| reads := 0; polls := 0;
             trace := [Created params; Stderr "‚ùå Error: 401"] |}).
Proof.
  eexists. split; [reflexivity|]. split.
  - exact (proj1 (no_wait_never_polls Sample.now Sample.retrieve Sample.create
                    Sample.repr Sample.repr_run Sample.json_dumps EmptyString
                    0 Cases.plain_args None Sample.w0 _ eq_refl eq_refl)).
  - exact (proj1 (no_wait_never_polls Sample.now Sample.retrieve Cases.refuse
                    Sample.repr Sample.repr_run Sample.json_dumps EmptyString
                    0 Cases.plain_args None Sample.w0 _ eq_refl eq_refl)).
Defined.

(** X14: the key of the [--browseruse-key] flag goes before the one of the
    environment, and an empty flag counts as none: the request carries one
    server descriptor with the bearer token of the key in force, together
    with the beta name, and carries neither when there is no key. *)
Theorem browseruse_key_precedence :
  forall (args : Args.t) (environ : option string) (params : dict),
    request args environ = Some params ->
    (forall k, Args.browseruse_key args = Some k -> k <> EmptyString ->
       get "mcp_servers" params = Some (VList [browseruse_server k])
       /\ get "betas" params = Some (VList [VStr "mcp-server-2025-07-17"]))
    /\ (forall k, truthy_opt (Args.browseruse_key args) = false ->
                  environ = Some k -> k <> EmptyString ->
          get "mcp_servers" params = Some (VList [browseruse_server k])
          /\ get "betas" params = Some (VList [VStr "mcp-server-2025-07-17"]))
    /\ (truthy_opt (Args.browseruse_key args) = false ->
        truthy_opt environ = false ->
        get "mcp_servers" params = None /\ get "betas" params = None).
Proof.
  intros args environ params Hreq. unfold request in Hreq.
  destruct (select_mode args) as [| |input_data task_spec processor];
    try discriminate.
  inversion Hreq as [Hp]. clear Hreq Hp.
  destruct (get_mcp_servers input_data processor task_spec
              (domain_filter (Args.include_domains args))
              (domain_filter (Args.exclude_domains args))
              (mcp_servers (browseruse args environ))) as [Hm Hb].
  cbv zeta in Hm, Hb. rewrite Hm, Hb. clear Hm Hb. unfold browseruse.
  repeat apply conj.
  - intros k -> Hk. destruct k; [congruence|]. split; reflexivity.
  - intros k Hf -> Hk.
    destruct (Args.browseruse_key args) as [[|? ?]|]; try discriminate;
      (destruct k; [congruence|]); split; reflexivity.
  - intros Hf He.
    destruct (Args.browseruse_key args) as [[|? ?]|]; try discriminate;
      destruct environ as [[|? ?]|]; try discriminate; split; reflexivity.
Qed.

Lemma browseruse_key_precedence_witness :
  (exists params,
     request Cases.plain_args (Some "bu_env") = Some params
     /\ lookup ["headers"; "Authorization"] (browseruse_server "bu_1")
        = Some (VStr "Bearer bu_1")
     /\ get "mcp_servers" params = Some (VList [browseruse_server "bu_1"]))
  /\ (exists params,
        request Cases.empty_key_args (Some "bu_env") = Some params
        /\ get "mcp_servers" params
           = Some (VList [browseruse_server "bu_env"]))
  /\ (exists params,
        request Cases.empty_key_args (Some EmptyString) = Some params
        /\ get "betas" params = None).
Proof.
  repeat apply conj.
  - eexists. split; [reflexivity|]. split; [reflexivity|].
    destruct (browseruse_key_precedence Cases.plain_args (Some "bu_env") _
                eq_refl) as [H _].
    exact (proj1 (H "bu_1" eq_refl ltac:(discriminate))).
  - eexists. split; [reflexivity|].
    destruct (browseruse_key_precedence Cases.empty_key_args (Some "bu_env") _
                eq_refl) as (_ & H & _).
    exact (proj1 (H "bu_env" eq_refl eq_refl ltac:(discriminate))).
  - eexists. split; [reflexivity|].
    destruct (browseruse_key_precedence Cases.empty_key_args
                (Some EmptyString) _ eq_refl) as (_ & _ & H).
    exact (proj2 (H eq_refl eq_refl)).
Defined.

(** ** Poller, continued *)

Section PollerFacts2.

Variable now : nat -> Q.
Variable retrieve : nat -> string -> res Result.
Variable repr_run : Run -> string.

Local Abbreviation loop := (poll_loop now retrieve repr_run).
Local Abbreviation poll := (poll_task now retrieve repr_run).

Lemma poll_loop_classified (fuel : nat) (run_id : string) (timeout : Z)
    (start : Q) (w w' : world) (r : res Result) :
  loop fuel run_id timeout start w = (Some r, w') ->
  match r with
  | Ok result =>
      status (run result) = "completed"
      /\ exists k, retrieve k run_id = Ok result
  | Raise e =>
      e = TimeoutError (timeout_message run_id timeout)
      \/ (exists k result,
            retrieve k run_id = Ok result
            /\ status (run result) = "failed"
            /\ e = Exception (failure_message repr_run (run result)))
      \/ exists k, retrieve k run_id = Raise e
  end.
Proof.
  revert w. induction fuel as [|fuel IH]; intros w; [discriminate|].
  simpl. destruct (Qltb (now (reads w) - start) (inject_Z timeout)).
  - destruct (retrieve (polls w) run_id) as [result|e] eqn:Hr.
    + destruct (String.eqb (status (run result)) "completed") eqn:Ec.
      * intros H. inversion H; subst. apply String.eqb_eq in Ec. eauto.
      * destruct (String.eqb (status (run result)) "failed") eqn:Ef.
        -- intros H. inversion H; subst. apply String.eqb_eq in Ef.
           right. left. eauto.
        -- apply IH.
    + intros H. inversion H; subst. right. right. eauto.
  - intros H. inversion H; subst. now left.
Qed.

(** X15: what the poll hands back is a completed run: a returned result
    has the status ["completed"] and is an answer of the service; the only
    errors are the timeout error, the failure of a run that the service
    reported as ["failed"], and an error of the service itself, passed on
    unchanged. *)
Theorem poll_task_outcome_kinds :
  forall (fuel : nat) (run_id : string) (timeout : Z) (w w' : world)
         (r : res Result),
    poll fuel run_id timeout w = (Some r, w') ->
    match r with
    | Ok result =>
        status (run result) = "completed"
        /\ exists k, retrieve k run_id = Ok result
    | Raise e =>
        e = TimeoutError (timeout_message run_id timeout)
        \/ (exists k result,
              retrieve k run_id = Ok result
              /\ status (run result) = "failed"
              /\ e = Exception (failure_message repr_run (run result)))
        \/ exists k, retrieve k run_id = Raise e
    end.
Proof.
  intros fuel run_id timeout w w' r. unfold poll_task.
  apply poll_loop_classified.
Qed.



(** X17: an error of the service ends the poll at once and is passed on
    unchanged: after [n] unsettled turns, a retrieval that raises makes the
    poll raise the same error, with no sleep after it. *)
Theorem service_error_propagates :
  forall (run_id : string) (timeout : Z) (w : world) (n fuel : nat) (e : exn),
    let start := now (reads w) in
    n < fuel ->
    (forall i, i < n -> pending now retrieve run_id timeout start (tick w) i) ->
    (now (reads w + 1 + n) - start < inject_Z timeout)%Q ->
    retrieve (polls w + n) run_id = Raise e ->
    poll fuel run_id timeout w
    = (Some (Raise e),
       emit (Retrieved run_id) (polled (tick (advance run_id n (tick w))))).
Proof.
  intros run_id timeout w n fuel e start Hfuel Hpend Hin Hr.
  unfold poll_task. fold start.
  replace fuel with (n + S (fuel - S n)) by lia.
  rewrite poll_loop_pending by exact Hpend.
  rewrite poll_loop_retrieve.
  - cbv zeta. cbn [polls advance tick]. now rewrite Hr.
  - cbn [reads advance tick].
    replace (S (reads w) + n) with (reads w + 1 + n) by lia. exact Hin.
Qed.

Lemma poll_loop_bound (fuel : nat) (run_id : string) (timeout : Z)
    (start : Q) (w : world) :
  (forall k, reads w <= k -> (now k + 2 <= now (S k))%Q) ->
  (inject_Z timeout
   <= now (reads w) - start + 2 * inject_Z (Z.of_nat fuel))%Q ->
  fst (loop (S fuel) run_id timeout start w) <> None
  /\ exists m,
       polls (snd (loop (S fuel) run_id timeout start w)) = polls w + m
       /\ match m with
          | 0 => True
          | S m' =>
              (now (reads w) - start + 2 * inject_Z (Z.of_nat m')
               < inject_Z timeout)%Q
          end.
Proof.
  revert w. induction fuel as [|fuel IH]; intros w Hclock Hb.
  - rewrite poll_loop_timeout.
    + split; [discriminate|]. exists 0. simpl. split; [lia|exact I].
    + change (inject_Z (Z.of_nat 0)) with 0%Q in Hb. lra.
  - destruct (Qlt_le_dec (now (reads w) - start) (inject_Z timeout))
      as [Hin|Hout].
    + rewrite poll_loop_retrieve by exact Hin. cbv zeta.
      assert (Hone : forall r : option (res Result),
                 r <> None ->
                 fst (r, emit (Retrieved run_id) (polled (tick w))) <> None
                 /\ exists m,
                      polls (snd (r, emit (Retrieved run_id)
                                          (polled (tick w))))
                      = polls w + m
                      /\ match m with
                         | 0 => True
                         | S m' =>
                             (now (reads w) - start
                              + 2 * inject_Z (Z.of_nat m')
                              < inject_Z timeout)%Q
                         end).
      { intros r Hr. split; [exact Hr|]. exists 1. simpl. split; [lia|].
        change (inject_Z 0) with 0%Q. lra. }
      destruct (retrieve (polls w) run_id) as [result|e];
        [|apply Hone; discriminate].
      destruct (String.eqb (status (run result)) "completed");
        [apply Hone; discriminate|].
      destruct (String.eqb (status (run result)) "failed");
        [apply Hone; discriminate|].
      pose proof (Hclock (reads w) (le_n _)) as Hstep.
      destruct (IH (emit (Slept 2)
                      (emit (Retrieved run_id) (polled (tick w)))))
        as (Hsome & m & Hp & Hm).
      * intros k Hk. apply Hclock. simpl in Hk. lia.
      * simpl. rewrite Nat2Z.inj_succ, <- Z.add_1_r, inject_Z_plus in Hb.
        change (inject_Z 1) with 1%Q in Hb. lra.
      * split; [exact Hsome|]. exists (S m). rewrite Hp. simpl.
        split; [lia|]. destruct m as [|m'].
        -- change (inject_Z (Z.of_nat 0)) with 0%Q. lra.
        -- simpl in Hm.
           rewrite Nat2Z.inj_succ, <- Z.add_1_r, inject_Z_plus.
           change (inject_Z 1) with 1%Q. lra.
    + rewrite poll_loop_timeout by exact Hout.
      split; [discriminate|]. exists 0. simpl. split; [lia|exact I].
Qed.

(** X18: the poll ends, and within its budget: when the clock does not go
    back between the first two readings and two seconds or more pass between
    the later ones (the sleep), [timeout] turns and one more settle the poll,
    and it retrieves at most half the timeout, rounded up, times: never with
    a timeout of zero or less. *)
Theorem poll_task_ends_within_budget :
  forall (run_id : string) (timeout : Z) (w : world),
    (now (reads w) <= now (S (reads w)))%Q ->
    (forall k, reads w < k -> (now k + 2 <= now (S k))%Q) ->
    let out := poll (S (Z.to_nat timeout)) run_id timeout w in
    fst out <> None
    /\ exists m,
         polls (snd out) = polls w + m
         /\ (2 * Z.of_nat m <= Z.max 0 (timeout + 1))%Z.
Proof.
  intros run_id timeout w H0 Hclock. unfold poll_task.
  destruct (poll_loop_bound (Z.to_nat timeout) run_id timeout
              (now (reads w)) (tick w)) as (Hsome & m & Hp & Hm).
  - intros k Hk. apply Hclock. simpl in Hk. lia.
  - simpl.
    assert (Hz : (timeout <= Z.of_nat (Z.to_nat timeout))%Z) by lia.
    rewrite Zle_Qle in Hz.
    assert (Hn : (0 <= Z.of_nat (Z.to_nat timeout))%Z) by lia.
    rewrite Zle_Qle in Hn. change (inject_Z 0) with 0%Q in Hn. lra.
  - split; [exact Hsome|]. exists m. split; [exact Hp|].
    destruct m as [|m']; [lia|]. simpl in Hm.
    assert (Hq : (inject_Z (2 * Z.of_nat m') < inject_Z timeout)%Q).
    { rewrite inject_Z_mult. change (inject_Z 2) with 2%Q. lra. }
    rewrite <- Zlt_Qlt in Hq. lia.
Qed.

End PollerFacts2.

Lemma poll_task_outcome_kinds_witness :
  status (run {| run := {| run_id := "trun_1"; status := "completed";
                           processor := "core" |};
                 output := Some {| type := "text"; content := VStr "ok";
                                   basis := Missing |} |})
  = "completed"
  /\ exists k,
       Sample.retrieve k "trun_1"
       = Ok {| run := {| run_id := "trun_1"; status := "completed";
                         processor := "core" |};
               output := Some {| type := "text"; content := VStr "ok";
                                 basis := Missing |} |}.
Proof.
  exact (poll_task_outcome_kinds Sample.now Sample.retrieve Sample.repr_run
           3 "trun_1" 300 Sample.w0
           {| reads := 4; polls := 3;
              trace := [Retrieved "trun_1"; Slept 2; Retrieved "trun_1";
                        Slept 2; Retrieved "trun_1"] |}
           (Ok {| run := {| run_id := "trun_1"; status := "completed";
                            processor := "core" |};
                  output := Some {| type := "text"; content := VStr "ok";
                                    basis := Missing |} |})
           eq_refl).
Defined.

Lemma service_error_propagates_witness :
  poll_task Sample.now Cases.flaky Sample.repr_run 5 "trun_1" 300 Sample.w0
  = (Some (Raise (ApiError "503")),
     {| reads := 3; polls := 2;
        trace := [Retrieved "trun_1"; Slept 2; Retrieved "trun_1"] |}).
Proof.
  apply (service_error_propagates Sample.now Cases.flaky Sample.repr_run
           "trun_1" 300 Sample.w0 1 5 (ApiError "503")).
  - lia.
  - intros i Hi. destruct i as [|i]; [|lia].
    split; [reflexivity|]. eexists. split; reflexivity.
  - reflexivity.
  - reflexivity.
Defined.

Lemma sample_clock_step (k : nat) : (Sample.now k + 2 <= Sample.now (S k))%Q.
Proof.
  unfold Sample.now. change 2%Q with (inject_Z 2).
  rewrite <- inject_Z_plus, <- Zle_Qle. lia.
Qed.

Lemma poll_task_ends_within_budget_witness :
  fst (poll_task Sample.now Sample.stuck Sample.repr_run 6 "trun_1" 5
                 Sample.w0) <> None
  /\ exists m,
       polls (snd (poll_task Sample.now Sample.stuck Sample.repr_run 6
                             "trun_1" 5 Sample.w0)) = m
       /\ (2 * Z.of_nat m <= 6)%Z.
Proof.
  exact (poll_task_ends_within_budget Sample.now Sample.stuck Sample.repr_run
           "trun_1" 5 Sample.w0
           ltac:(vm_compute; discriminate)
           (fun k _ => sample_clock_step k)).
Defined.

(** ** Renderers, continued *)

Section Traverse.

Context {A B : Type}.
Variable f : A -> res B.
Variable ok : A -> bool.
Hypothesis f_ok : forall x, ok x = true -> exists y, f x = Ok y.
Hypothesis f_raise : forall x, ok x = false -> f x = Raise BuiltinError.

Lemma traverse_ok (l : list A) :
  forallb ok l = true ->
  exists ys, traverse f l = Ok ys /\ List.length ys = List.length l.
Proof.
  induction l as [|x l IH]; simpl; intros H.
  - exists []. auto.
  - apply andb_true_iff in H. destruct H as [Hx Hl].
    destruct (f_ok x Hx) as (y & ->). destruct (IH Hl) as (ys & -> & Hlen).
    exists (y :: ys). simpl. auto.
Qed.

Lemma traverse_raise (l : list A) :
  forallb ok l = false -> traverse f l = Raise BuiltinError.
Proof.
  induction l as [|x l IH]; simpl; intros H; [discriminate|].
  destruct (ok x) eqn:Hx.
  - destruct (f_ok x Hx) as (y & ->). simpl in *. now rewrite (IH H).
  - now rewrite (f_raise x Hx).
Qed.

End Traverse.

Lemma traverse_length {A B} (f : A -> res B) (l : list A) (ys : list B) :
  traverse f l = Ok ys -> List.length ys = List.length l.
Proof.
  revert ys. induction l as [|x l IH]; simpl; intros ys H.
  - now inversion H.
  - destruct (f x) as [y|]; [|discriminate]. simpl in H.
    destruct (traverse f l) as [zs|]; [|discriminate]. simpl in H.
    inversion H. simpl. now rewrite (IH zs).
Qed.

Lemma traverse_each {A B} (f : A -> res B) (P : B -> Prop) (l : list A)
    (ys : list B) :
  (forall x y, f x = Ok y -> P y) ->
  traverse f l = Ok ys -> Forall P ys.
Proof.
  intros Hf. revert ys. induction l as [|x l IH]; simpl; intros ys H.
  - inversion H. constructor.
  - destruct (f x) as [y|] eqn:E; [|discriminate]. simpl in H.
    destruct (traverse f l) as [zs|]; [|discriminate]. simpl in H.
    inversion H. constructor; eauto.
Qed.

Section RendererFacts.

Variable repr : value -> string.

Lemma citation_line_decided (c : Citation) :
  (citation_ok c = true -> exists line, citation_line repr c = Ok line)
  /\ (citation_ok c = false -> citation_line repr c = Raise BuiltinError).
Proof.
  unfold citation_ok, citation_line.
  destruct (title c), (url c); simpl; split; intros H;
    try discriminate; eauto.
Qed.

Lemma citation_json_decided (c : Citation) :
  (citation_ok c = true -> exists v, citation_json c = Ok v)
  /\ (citation_ok c = false -> citation_json c = Raise BuiltinError).
Proof.
  unfold citation_ok, citation_json.
  destruct (title c), (url c); simpl; split; intros H;
    try discriminate; eauto.
Qed.

Lemma basis_lines_decided (b : Basis) :
  (basis_ok (firstn 2) b = true -> exists lines, basis_lines repr b = Ok lines)
  /\ (basis_ok (firstn 2) b = false -> basis_lines repr b = Raise BuiltinError).
Proof.
  unfold basis_ok, basis_lines. destruct (citations b) as [| |l].
  - split; [eauto|discriminate].
  - split; [discriminate|reflexivity].
  - split; intros H.
    + destruct (traverse_ok (citation_line repr) citation_ok
                  (fun c => proj1 (citation_line_decided c)) _ H)
        as (cs & -> & _).
      simpl. eauto.
    + now rewrite (traverse_raise (citation_line repr) citation_ok
                     (fun c => proj1 (citation_line_decided c))
                     (fun c => proj2 (citation_line_decided c)) _ H).
Qed.

Lemma basis_json_decided (b : Basis) :
  (basis_ok (fun l => l) b = true -> exists v, basis_json b = Ok v)
  /\ (basis_ok (fun l => l) b = false -> basis_json b = Raise BuiltinError).
Proof.
  unfold basis_ok, basis_json. destruct (citations b) as [| |l].
  - split; [simpl; eauto|discriminate].
  - split; [discriminate|reflexivity].
  - split; intros H.
    + destruct (traverse_ok citation_json citation_ok
                  (fun c => proj1 (citation_json_decided c)) _ H)
        as (cs & -> & _).
      simpl. eauto.
    + now rewrite (traverse_raise citation_json citation_ok
                     (fun c => proj1 (citation_json_decided c))
                     (fun c => proj2 (citation_json_decided c)) _ H).
Qed.

Lemma content_lines_decided (o : Output) :
  (content_ok o = true -> exists lines, content_lines repr o = Ok lines)
  /\ (content_ok o = false -> content_lines repr o = Raise BuiltinError).
Proof.
  unfold content_ok, content_lines.
  destruct (String.eqb (type o) "json") eqn:Ej.
  - apply String.eqb_eq in Ej. rewrite Ej. simpl.
    destruct (content o); split; intros H; try discriminate; eauto.
  - destruct (String.eqb (type o) "text");
      destruct (content o); simpl; split; intros H; try discriminate; eauto.
Qed.

Lemma citation_block_decided (o : Output) :
  let ok := match basis o with
            | Items l => forallb (basis_ok (firstn 2)) (firstn 5 l)
            | _ => true
            end in
  (ok = true -> exists lines, citation_block repr o = Ok lines)
  /\ (ok = false -> citation_block repr o = Raise BuiltinError).
Proof.
  unfold citation_block. destruct (basis o) as [| |[|b l]];
    try (split; [eauto|discriminate]).
  cbv beta iota zeta. split; intros H.
  - destruct (traverse_ok (basis_lines repr) (basis_ok (firstn 2))
                (fun x => proj1 (basis_lines_decided x)) _ H)
      as (bs & Hbs & _).
    rewrite Hbs. cbn [bind]. eauto.
  - now rewrite (traverse_raise (basis_lines repr) (basis_ok (firstn 2))
                   (fun x => proj1 (basis_lines_decided x))
                   (fun x => proj2 (basis_lines_decided x)) _ H).
Qed.

Lemma format_result_decided :
  forall result : Result,
    (human_ok result = true -> exists text, format_result repr result = Ok text)
    /\ (human_ok result = false ->
        format_result repr result = Raise BuiltinError).
Proof.
  intros [r [o|]]; unfold human_ok, format_result; cbn [output run];
    [|split; [eauto|discriminate]].
  destruct (content_lines_decided o) as [Hc Hc'].
  destruct (citation_block_decided o) as [Hb Hb']. cbv zeta in Hb, Hb'.
  set (cited := match basis o with
                | Items l => forallb (basis_ok (firstn 2)) (firstn 5 l)
                | _ => true
                end) in *.
  clearbody cited.
  destruct (content_ok o).
  - destruct (Hc eq_refl) as (body & ->). cbn [bind andb]. destruct cited.
    + destruct (Hb eq_refl) as (cites & ->). cbn [bind].
      split; [eauto|discriminate].
    + rewrite (Hb' eq_refl). split; [discriminate|reflexivity].
  - rewrite (Hc' eq_refl). cbn [bind andb].
    split; [discriminate|reflexivity].
Qed.

(** X19: [format_result] has one way to fail: it returns a text unless
    the output is of type text with a content that is not a string, or one
    of the first five basis entries holds [None] as citations or has, among
    its first two citations, one without title or url; then it raises.  A
    result without output is always formatted. *)
Theorem format_result_succeeds_iff :
  forall result : Result,
    (human_ok result = true -> exists text, format_result repr result = Ok text)
    /\ (human_ok result = false ->
        format_result repr result = Raise BuiltinError).
Proof. exact format_result_decided. Qed.

End RendererFacts.

Lemma json_document_decided :
  forall result : Result,
    (json_ok result = true -> exists doc, json_document result = Ok doc)
    /\ (json_ok result = false -> json_document result = Raise BuiltinError).
Proof.
  intros [r [o|]]; unfold json_ok, json_document; simpl;
    [|split; [eauto|discriminate]].
  destruct (basis o) as [| |l].
  - split; [eauto|discriminate].
  - split; [discriminate|reflexivity].
  - split; intros H.
    + destruct (traverse_ok basis_json (basis_ok (fun l => l))
                  (fun x => proj1 (basis_json_decided x)) _ H)
        as (bs & -> & _).
      simpl. eauto.
    + now rewrite (traverse_raise basis_json (basis_ok (fun l => l))
                     (fun x => proj1 (basis_json_decided x))
                     (fun x => proj2 (basis_json_decided x)) _ H).
Qed.

(** X20: the JSON renderer fails exactly when the basis attribute holds
    [None], or some basis entry, whichever its place in the list, holds
    [None] as citations or has a citation without title or url; the content
    and its type never make it fail. *)
Theorem json_document_succeeds_iff :
  forall result : Result,
    (json_ok result = true -> exists doc, json_document result = Ok doc)
    /\ (json_ok result = false -> json_document result = Raise BuiltinError).
Proof. exact json_document_decided. Qed.

Lemma format_result_succeeds_iff_witness :
  (exists text, format_result Sample.repr Cases.long_result = Ok text)
  /\ format_result Sample.repr Cases.ill_typed_result = Raise BuiltinError.
Proof.
  split.
  - exact (proj1 (format_result_succeeds_iff Sample.repr Cases.long_result)
             eq_refl).
  - exact (proj2 (format_result_succeeds_iff Sample.repr
                    Cases.ill_typed_result) eq_refl).
Defined.

Lemma json_document_succeeds_iff_witness :
  json_document Cases.long_result = Raise BuiltinError
  /\ exists doc, json_document Cases.ill_typed_result = Ok doc.
Proof.
  split.
  - exact (proj2 (json_document_succeeds_iff Cases.long_result) eq_refl).
  - exact (proj1 (json_document_succeeds_iff Cases.ill_typed_result) eq_refl).
Defined.

Lemma forallb_firstn {A} (p : A -> bool) (n : nat) (l : list A) :
  forallb p l = true -> forallb p (firstn n l) = true.
Proof.
  revert l. induction n as [|n IH]; intros [|x l] H; try reflexivity.
  simpl in *. apply andb_true_iff in H. destruct H as [-> H].
  now rewrite (IH l H).
Qed.

Lemma basis_ok_firstn (b : Basis) :
  basis_ok (fun l => l) b = true -> basis_ok (firstn 2) b = true.
Proof.
  unfold basis_ok. destruct (citations b); auto. apply forallb_firstn.
Qed.

Lemma forallb_impl {A} (p q : A -> bool) (l : list A) :
  (forall x, p x = true -> q x = true) ->
  forallb p l = true -> forallb q l = true.
Proof.
  intros Hpq. induction l as [|x l IH]; simpl; [auto|].
  intros H. apply andb_true_iff in H. destruct H as [Hx Hl].
  now rewrite (Hpq x Hx), (IH Hl).
Qed.

(** X21: the JSON renderer is the stricter of the two about the basis: a
    result that it renders is also rendered by [format_result], provided the
    content fits the output type; the converse fails from the sixth basis
    entry and the third citation on, which [format_result] never reads. *)
Theorem json_rendered_is_human_rendered :
  forall (repr : value -> string) (result : Result) (doc : dict),
    json_document result = Ok doc ->
    (forall o, output result = Some o -> content_ok o = true) ->
    exists text, format_result repr result = Ok text.
Proof.
  intros repr result doc Hdoc Hcontent.
  apply format_result_decided.
  destruct (json_ok result) eqn:Hj.
  - unfold json_ok in Hj. unfold human_ok.
    destruct (output result) as [o|]; [|reflexivity].
    rewrite (Hcontent o eq_refl). cbn [andb].
    destruct (basis o) as [| |l]; try reflexivity.
    apply forallb_firstn.
    eapply forallb_impl; [|exact Hj]. exact basis_ok_firstn.
  - apply json_document_decided in Hj. congruence.
Qed.

Lemma json_rendered_is_human_rendered_witness :
  exists text,
    format_result Sample.repr Sample.a_result = Ok text.
Proof.
  destruct (json_document Sample.a_result) as [doc|e] eqn:E;
    [|discriminate E].
  apply (json_rendered_is_human_rendered Sample.repr Sample.a_result doc E).
  intros o Ho. inversion Ho. reflexivity.
Defined.

Lemma basis_lines_length (repr : value -> string) (b : Basis)
    (lines : list string) :
  basis_lines repr b = Ok lines -> 1 <= List.length lines <= 3.
Proof.
  unfold basis_lines. destruct (citations b) as [| |l].
  - intros H. inversion H. simpl. lia.
  - discriminate.
  - destruct (traverse (citation_line repr) (firstn 2 l)) as [cs|] eqn:E;
      [|discriminate].
    intros H. inversion H. apply traverse_length in E.
    pose proof (firstn_le_length 2 l). simpl.
    rewrite E, length_firstn. lia.
Qed.

Lemma length_concat_le {A} (n : nat) (ls : list (list A)) :
  Forall (fun l => List.length l <= n) ls ->
  List.length (List.concat ls) <= n * List.length ls.
Proof.
  induction 1 as [|l ls Hl _ IH]; simpl; [lia|].
  rewrite length_app. lia.
Qed.

(** X22: the citations block is short: when there is one it has the empty
    line, its heading and at most fifteen lines more (five entries of at
    most three lines), seventeen in all, however long the basis is; and
    without basis entries there is no block at all. *)
Theorem citation_block_is_bounded :
  forall (repr : value -> string) (o : Output) (lines : list string),
    citation_block repr o = Ok lines ->
    List.length lines <= 17
    /\ (lines = []
        \/ exists rest, lines = EmptyString :: "**Citations:**" :: rest)
    /\ (lines = [] <-> match basis o with Items (_ :: _) => False | _ => True end).
Proof.
  intros repr o lines. unfold citation_block.
  destruct (basis o) as [| |[|b l]];
    try (intros H; inversion H; simpl; repeat split; auto; lia).
  cbv beta iota zeta.
  destruct (traverse (basis_lines repr) (firstn 5 (b :: l))) as [bs|] eqn:E;
    [|discriminate].
  intros H. inversion H. clear H.
  pose proof (traverse_length _ _ _ E) as Hlen.
  pose proof (traverse_each _ (fun ls => List.length ls <= 3) _ _
                (fun x y Hxy => proj2 (basis_lines_length repr x y Hxy)) E)
    as Hall.
  apply length_concat_le in Hall.
  rewrite length_firstn in Hlen.
  repeat split.
  - cbn [List.length]. lia.
  - right. eauto.
  - discriminate.
  - intros [].
Qed.

Lemma citation_block_is_bounded_witness :
  exists lines,
    citation_block Sample.repr Cases.cited_output = Ok lines
    /\ List.length lines <= 17.
Proof.
  destruct (citation_block Sample.repr Cases.cited_output) as [lines|e] eqn:E;
    [|vm_compute in E; discriminate E].
  exists lines. split; [reflexivity|].
  exact (proj1 (citation_block_is_bounded Sample.repr Cases.cited_output
                  lines E)).
Defined.

Lemma basis_json_shape (b : Basis) (v : value) :
  basis_json b = Ok v ->
  exists f c cs,
    v = VDict [("field", f); ("confidence", c); ("citations", VList cs)].
Proof.
  unfold basis_json.
  destruct (match citations b with
            | Missing => Ok []
            | IsNone => Raise BuiltinError
            | Items l => traverse citation_json l
            end) as [cs|]; [|discriminate].
  intros H. inversion H. eauto.
Qed.

(** X23: the JSON document holds the whole basis: one entry for each
    basis entry of the result, past the fifth as well, and each entry is an
    object with exactly the keys [field], [confidence] and [citations], the
    last one a list. *)
Theorem json_basis_is_complete :
  forall (result : Result) (o : Output) (l : list Basis) (doc : dict),
    output result = Some o ->
    basis o = Items l ->
    json_document result = Ok doc ->
    exists bs,
      get "basis" doc = Some (VList bs)
      /\ List.length bs = List.length l
      /\ Forall (fun v => exists f c cs,
                   v = VDict [("field", f); ("confidence", c);
                              ("citations", VList cs)]) bs.
Proof.
  intros [r out] o l doc Ho Hb. simpl in Ho. subst out.
  unfold json_document. cbn [output]. rewrite Hb.
  destruct (traverse basis_json l) as [bs|] eqn:E; [|discriminate].
  intros H. inversion H. exists bs. repeat split.
  - now apply traverse_length in E.
  - eapply traverse_each; [|exact E]. exact basis_json_shape.
Qed.

Lemma json_basis_is_complete_witness :
  exists bs,
    (doc <- json_document Cases.cited_result ;; Ok (get "basis" doc))
    = Ok (Some (VList bs))
    /\ List.length bs = 7.
Proof.
  destruct (json_document Cases.cited_result) as [doc|e] eqn:E;
    [|vm_compute in E; discriminate E].
  destruct (json_basis_is_complete Cases.cited_result Cases.cited_output _ doc
              eq_refl eq_refl E) as (bs & Hg & Hl & _).
  exists bs. split; [simpl; now rewrite Hg|exact Hl].
Defined.

Lemma length_take_le (n : nat) (s : string) : String.length (take n s) <= n.
Proof.
  revert s. induction n as [|n IH]; intros [|a s]; simpl; try lia.
  specialize (IH s). lia.
Qed.

Lemma length_string_app (s t : string) :
  String.length (s ++ t) = String.length s + String.length t.
Proof. induction s as [|a s IH]; simpl; [reflexivity|now rewrite IH]. Qed.

(** X24: what the formatter prints of a value is bounded: a field of an
    object takes at most 203 characters after its key and is shown whole
    when it has 200 or fewer; a report takes at most 2003; any other content
    is cut to its first 2000 characters with no marker after them. *)
Theorem printed_values_are_bounded :
  forall repr : value -> string,
    (forall key v,
       exists shown,
         result_line repr (key, v)
         = "  " ++ bullet ++ " " ++ key ++ ": " ++ shown
         /\ String.length shown <= 203
         /\ (String.length (str repr v) <= 200 -> shown = str repr v))
    /\ (forall o lines,
          content_lines repr o = Ok lines -> type o = "text" ->
          exists shown,
            lines = ["**Report:**"; shown] /\ String.length shown <= 2003)
    /\ (forall o lines,
          content_lines repr o = Ok lines ->
          type o <> "text" ->
          (type o = "json" -> forall d, content o <> VDict d) ->
          lines = ["**Output (" ++ type o ++ "):**";
                   take 2000 (str repr (content o))]
          /\ String.length (take 2000 (str repr (content o))) <= 2000).
Proof.
  intros repr. repeat apply conj.
  - intros key v. unfold result_line. cbn [fst snd].
    destruct (Nat.ltb 200 (String.length (str repr v))) eqn:E.
    + eexists. split; [reflexivity|]. split.
      * rewrite length_string_app.
        pose proof (length_take_le 200 (str repr v)).
        change (String.length "...") with 3. lia.
      * apply Nat.ltb_lt in E. lia.
    + exists (str repr v). split; [reflexivity|].
      apply Nat.ltb_ge in E. split; [lia|reflexivity].
  - intros o lines H Ht. unfold content_lines in H. rewrite Ht in H.
    change (String.eqb "text" "json") with false in H.
    change (String.eqb "text" "text") with true in H.
    cbv beta iota in H.
    destruct (content o) as [| | |s| |]; try discriminate.
    exists (if Nat.ltb 2000 (String.length s) then take 2000 s ++ "..."
            else s).
    split; [congruence|].
    destruct (Nat.ltb 2000 (String.length s)) eqn:E.
    + rewrite length_string_app. pose proof (length_take_le 2000 s).
      change (String.length "...") with 3. lia.
    + apply Nat.ltb_ge in E. lia.
  - intros o lines H Ht Hj. unfold content_lines in H.
    assert (Et : String.eqb (type o) "text" = false).
    { apply String.eqb_neq. exact Ht. }
    rewrite Et in H.
    split; [|apply length_take_le].
    destruct (String.eqb (type o) "json") eqn:Ej.
    + apply String.eqb_eq in Ej.
      destruct (content o) eqn:Ec; try congruence.
      exfalso. exact (Hj Ej _ eq_refl).
    + destruct (content o); congruence.
Qed.

Lemma printed_values_are_bounded_witness :
  content_lines Sample.repr
    {| type := "json"; content := VStr (Sample.letters 2500);
       basis := Missing |}
  = Ok ["**Output (json):**"; Sample.letters 2000]
  /\ content_lines Sample.repr
       {| type := "text"; content := VStr (Sample.letters 2500);
          basis := Missing |}
     = Ok ["**Report:**"; Sample.letters 2000 ++ "..."].
Proof.
  destruct (printed_values_are_bounded Sample.repr) as (_ & Htext & Hother).
  split.
  - destruct (content_lines Sample.repr
                {| type := "json"; content := VStr (Sample.letters 2500);
                   basis := Missing |}) as [lines|e] eqn:E;
      [|vm_compute in E; discriminate E].
    destruct (Hother _ lines E) as [Hl _].
    + discriminate.
    + intros _ d. discriminate.
    + rewrite Hl. vm_compute. reflexivity.
  - destruct (content_lines Sample.repr
                {| type := "text"; content := VStr (Sample.letters 2500);
                   basis := Missing |}) as [lines|e] eqn:E;
      [|vm_compute in E; discriminate E].
    destruct (Htext _ lines E eq_refl) as (shown & Hl & _).
    vm_compute in E. inversion E. vm_compute. reflexivity.
Defined.

(** ** Whitespace *)

Lemma rstrip_idempotent (s : string) : rstrip (rstrip s) = rstrip s.
Proof.
  induction s as [|a s IH]; [reflexivity|].
  simpl. destruct (rstrip s) as [|b r] eqn:E.
  - destruct (isspace a) eqn:Ea; [reflexivity|]. simpl. now rewrite Ea.
  - simpl in *. now rewrite IH.
Qed.

Lemma lstrip_head (s : string) :
  lstrip s = EmptyString
  \/ exists a t, lstrip s = String a t /\ isspace a = false.
Proof.
  induction s as [|a s IH]; simpl; [now left|].
  destruct (isspace a) eqn:Ea; [exact IH|]. right. eauto.
Qed.

Lemma lstrip_rstrip (a : ascii) (t : string) :
  isspace a = false -> lstrip (rstrip (String a t)) = rstrip (String a t).
Proof.
  intros Ha. simpl.
  destruct (rstrip t); rewrite ?Ha; simpl; rewrite ?Ha; reflexivity.
Qed.

Lemma strip_idempotent (s : string) : strip (strip s) = strip s.
Proof.
  unfold strip. destruct (lstrip_head s) as [->|(a & t & -> & Ha)].
  - reflexivity.
  - rewrite (lstrip_rstrip a t Ha). apply rstrip_idempotent.
Qed.

(** X25: nothing that the schema builder hands on carries blanks around
    it: every key and every value of the input data, and every name of an
    output property, is left unchanged by [strip], and no output property
    has the empty name. *)
Theorem built_names_are_stripped :
  forall input_fields output_fields : string,
    (forall k v,
       In (k, v) (fst (build_enrichment_spec input_fields output_fields)) ->
       strip k = k /\ strip v = v)
    /\ (forall f,
          In f (keys (parse_outputs output_fields)) ->
          strip f = f /\ f <> EmptyString).
Proof.
  intros input_fields output_fields. split.
  - intros k v H. rewrite fst_build_enrichment_spec in H.
    unfold parse_inputs in H. apply fold_input_step_origin in H.
    destruct H as [[]|(tok & key & val & _ & _ & _ & -> & ->)].
    split; apply strip_idempotent.
  - intros f H. unfold parse_outputs in H. apply fold_output_step_keys in H.
    destruct H as [[]|(tok & _ & <- & Hne)].
    split; [apply strip_idempotent|exact Hne].
Qed.

Lemma built_names_are_stripped_witness :
  fst (build_enrichment_spec "  company name =  Stripe Inc. " " funding ,, ")
  = [("company name", "Stripe Inc.")]
  /\ strip "company name" = "company name"
  /\ strip "Stripe Inc." = "Stripe Inc.".
Proof.
  split; [reflexivity|].
  apply (proj1 (built_names_are_stripped
                  "  company name =  Stripe Inc. " " funding ,, ")).
  simpl. auto.
Defined.

(** ** The header *)

Lemma string_app_assoc (s t u : string) : (s ++ t) ++ u = s ++ t ++ u.
Proof. induction s as [|a s IH]; simpl; [reflexivity|now rewrite IH]. Qed.

(** X26: whatever else it prints, a formatted result opens with the same
    three lines: the run id, then status and processor, then an empty line;
    the text is these three lines and the lines after them, joined by
    newlines, so that what follows the second line is either nothing or a
    newline, which closes the empty third line. *)
Theorem formatted_result_opens_with_header :
  forall (repr : value -> string) (result : Result) (text : string),
    format_result repr result = Ok text ->
    (exists lines,
       text = join newline
                (("üî¨ Task: " ++ run_id (run result))
                 :: ("   Status: " ++ status (run result)
                       ++ " | Processor: " ++ processor (run result))
                 :: EmptyString :: lines))
    /\ exists rest,
         text = "üî¨ Task: " ++ run_id (run result) ++ newline
                ++ "   Status: " ++ status (run result) ++ " | Processor: "
                ++ processor (run result) ++ newline ++ rest
         /\ (rest = EmptyString \/ exists more, rest = newline ++ more).
Proof.
  intros repr [r out] text. unfold format_result. cbn [output run].
  assert (Hjoin : forall more,
             exists rest,
               join newline (header r ++ more)%list
               = "üî¨ Task: " ++ run_id r ++ newline
                 ++ "   Status: " ++ status r ++ " | Processor: "
                 ++ processor r ++ newline ++ rest
               /\ (rest = EmptyString \/ exists tail, rest = newline ++ tail)).
  { intros more. unfold header, join. cbn [app].
    destruct more as [|line more]; cbn [String.concat];
      rewrite !string_app_assoc; eexists; (split; [reflexivity|]).
    - now left.
    - right. cbn [append]. eauto. }
  destruct out as [o|].
  - destruct (content_lines repr o) as [body|]; [|discriminate]. cbn [bind].
    destruct (citation_block repr o) as [cites|]; [|discriminate]. cbn [bind].
    intros H. inversion H. split; [|apply Hjoin].
    exists (body ++ cites)%list. reflexivity.
  - intros H. inversion H. split.
    + exists []. reflexivity.
    + destruct (Hjoin []) as (rest & Hrest & Hshape).
      rewrite app_nil_r in Hrest. eauto.
Qed.

Lemma formatted_result_opens_with_header_witness :
  (exists lines,
     join newline
       ["üî¨ Task: trun_1"; "   Status: completed | Processor: core";
        EmptyString; "**Report:**"; "ok"]
     = join newline
         (("üî¨ Task: " ++ "trun_1")
          :: ("   Status: " ++ "completed" ++ " | Processor: " ++ "core")
          :: EmptyString :: lines))
  /\ exists rest,
       join newline
         ["üî¨ Task: trun_1"; "   Status: completed | Processor: core";
          EmptyString; "**Report:**"; "ok"]
       = "üî¨ Task: " ++ "trun_1" ++ newline
         ++ "   Status: " ++ "completed" ++ " | Processor: " ++ "core"
         ++ newline ++ rest
       /\ (rest = EmptyString \/ exists more, rest = newline ++ more).
Proof.
  exact (formatted_result_opens_with_header Sample.repr
           {| run := Sample.a_run;
              output := Some {| type := "text"; content := VStr "ok";
                                basis := Missing |} |}
           _ eq_refl).
Defined.
